(** * Cloudy Pad: instance state, its migration and the lifecycle manager

    A shallow embedding of

    - [src/core/state.ts]: the state store ([StateManager]) and the migration
      of a raw document to the current schema ([ensureStateV1]);
    - [src/core/manager.ts]: the per-provider factory of sub-managers
      ([AbstractSubManagerFactory]) and the lifecycle manager
      ([InstanceManager]);
    - [src/tools/pulumi/client.ts], which these sources hold at the end of
      state.ts: the abstract Pulumi client ([InstancePulumiClient]).

    JavaScript values are embedded as a tree type, objects as finite maps
    from property names to values.  Exceptions are embedded as a result
    type, the mutable parts (the manager's state object, the disk) as
    explicit state passing.  The migration is embedded a second time over
    a heap of objects (module [Heap]), to state what it does to the
    document it is given; [heap_migration_refines] relates the two.

    The file has the embedding first, then the vocabulary in which the
    specification is stated and the examples, then the properties. *)

From Stdlib Require Import ZArith String List.
From stdpp Require Import base option gmap strings list fin_maps pretty.

Local Open Scope string_scope.
Local Open Scope Z_scope.

Set Warnings "-register-all".

(** ** JavaScript values *)

(** A defined JavaScript value as [yaml.load] produces them.  Numbers are
    restricted to integers.  [undefined] is not a constructor: a value that
    may be undefined is an [option value] (written [jsval]), and a property
    holding undefined is the same as an absent property, which is how every
    read in these sources ([!x], [x?.p], [x ?? y]) treats it. *)
Inductive value : Type :=
  | VNull
  | VBool (b : bool)
  | VNum (n : Z)
  | VStr (s : string)
  | VArr (l : list value)
  | VObj (m : gmap string value).

Abbreviation jsval := (option value).
Abbreviation undefined := (@None value).

(** ** Errors *)

(** One constructor per [throw] of the sources, named after its message. *)
Inductive error : Type :=
  (** reading a property of [null] or [undefined] *)
  | TypeError
  (** state.ts:27 "Neither CLOUDYPAD_HOME nor HOME environment variable is set..." *)
  | NoDataRootDir
  (** state.ts:102 "Instance named '...' does not exist." *)
  | InstanceDoesNotExist (instanceName : string)
  (** [fs.readFileSync] on a path that holds no file *)
  | NoSuchFile (path : string)
  (** state.ts:156 "Unknown state version '1'" *)
  | UnknownStateVersion
  (** state.ts:177 "Missing host in state. Was instance fully provisioned ?" *)
  | MissingHost
  (** state.ts:181 "Missing SSh config in state. ..." *)
  | MissingSshConfig
  (** state.ts:187,220,259,292 "Missing <provider> provision args in state. ..." *)
  | MissingProvisionArgs (provider : string)
  (** state.ts:191,224,228,263,296 "Missing <provider> <field> in state. ..." *)
  | MissingProviderField (provider field : string)
  (** state.ts:300 "Missing Paperspace api key in state. ..." *)
  | MissingPaperspaceApiKey
  (** state.ts:326 "Unknwon provider in state <providerV0>" *)
  | UnknownProviderInState
  (** manager.ts:33 "Can't build Instance Runner for ...: no provision output in state. ..." *)
  | NoProvisionOutputForRunner (instanceName : string)
  (** manager.ts:48 "Missing common provision output. Was instance fully initialized ?" *)
  | NoProvisionOutputForConfigurator
  (** an error raised by an external collaborator (provisioner, configurator,
      runner, prompt, YAML parser) *)
  | Thrown (what : string).

Inductive result (A : Type) : Type :=
  | Ok (a : A)
  | Err (e : error).
Arguments Ok {A} a.
Arguments Err {A} e.

(** [x ← r; k]: evaluate [r]; an exception leaves the block. *)
#[export] Instance result_bind : MBind result := fun A B k r =>
  match r with
  | Ok a => k a
  | Err e => Err e
  end.
#[export] Instance result_ret : MRet result := @Ok.

(** The error classes of the specification, as a classification of the
    errors the code throws. *)
Inductive error_class : Type :=
  | SchemaValidationError
  | MigrationError
  | UnsupportedVersionError
  | UnknownProviderError
  | InstanceNotFoundError
  | NotProvisionedError
  | OtherError.

Definition classify (e : error) : error_class :=
  match e with
  | UnknownStateVersion => UnsupportedVersionError
  | MissingHost | MissingSshConfig | MissingProvisionArgs _
  | MissingProviderField _ _ | MissingPaperspaceApiKey => MigrationError
  | UnknownProviderInState => UnknownProviderError
  | InstanceDoesNotExist _ => InstanceNotFoundError
  | NoProvisionOutputForRunner _ | NoProvisionOutputForConfigurator =>
      NotProvisionedError
  | TypeError | NoDataRootDir | NoSuchFile _ | Thrown _ => OtherError
  end.

(** ** Operators *)

(** [ToBoolean]: [undefined], [null], [false], [0] and the empty string are
    falsy, every other value (every array and object) is truthy. *)
Definition truthy (v : jsval) : bool :=
  match v with
  | None => false
  | Some VNull => false
  | Some (VBool b) => b
  | Some (VNum n) => negb (n =? 0)
  | Some (VStr s) => negb (String.eqb s "")
  | Some (VArr _) => true
  | Some (VObj _) => true
  end.

Definition nullish (v : jsval) : bool :=
  match v with
  | None | Some VNull => true
  | _ => false
  end.

(** [x ?? y] *)
Definition coalesce (x y : jsval) : jsval :=
  if nullish x then y else x.

(** [x?.p] for a property name [p] that is neither an index nor a member
    of a prototype (none of the names these sources read is): the property
    of an object, undefined on anything else. *)
Definition get (v : jsval) (p : string) : jsval :=
  match v with
  | Some (VObj m) => m !! p
  | _ => None
  end.

(** [x.p]: as [x?.p], but a [TypeError] when [x] is null or undefined. *)
Definition read (v : jsval) (p : string) : result jsval :=
  if nullish v then Err TypeError else Ok (get v p).

(** Property names of the elements of an array, or of the characters of a
    string: "0", "1", ... *)
Definition indexed {A V} (f : A -> V) (l : list A) : gmap string V :=
  list_to_map (imap (fun i x => (pretty i, f x)) l).

Definition chars (s : string) : list string :=
  map (fun c => String c EmptyString) (list_ascii_of_string s).

(** The own enumerable properties an object spread [{...x}] copies. *)
Definition spread (v : jsval) : gmap string value :=
  match v with
  | Some (VObj m) => m
  | Some (VArr l) => indexed id l
  | Some (VStr s) => indexed VStr (chars s)
  | _ => ∅
  end.

(** [{...o, p: x}]: the property [p] of an object literal; a property set
    to undefined reads as an absent one. *)
Definition set {V} (p : string) (x : option V) (o : gmap string V) : gmap string V :=
  match x with
  | Some v => <[p := v]> o
  | None => delete p o
  end.

(** [ToString], for the comparison of a version with a string.  An object
    is taken to have no [toString] or [valueOf] property of its own. *)
Fixpoint to_string (v : value) : string :=
  match v with
  | VNull => "null"
  | VBool b => if b then "true" else "false"
  | VNum n => pretty n
  | VStr s => s
  | VArr l =>
      String.concat ","
        (map (fun x => match x with VNull => "" | _ => to_string x end) l)
  | VObj _ => "[object Object]"
  end.

(** [x != "1"] (the loose inequality): null and undefined differ from any
    string; a boolean and a number are compared as numbers, a string as a
    string, an array or an object through its [ToString]. *)
Definition loose_neq_1 (v : jsval) : bool :=
  match v with
  | None | Some VNull => true
  | Some (VBool b) => negb b
  | Some (VNum n) => negb (n =? 1)
  | Some (VStr s) => negb (String.eqb s "1")
  | Some (VArr l) => negb (String.eqb (to_string (VArr l)) "1")
  | Some (VObj _) => true
  end.

(** ** core/const.ts *)

Definition CLOUDYPAD_PROVIDER_AWS := "aws".
Definition CLOUDYPAD_PROVIDER_PAPERSPACE := "paperspace".
Definition CLOUDYPAD_PROVIDER_AZURE := "azure".
Definition CLOUDYPAD_PROVIDER_GCP := "gcp".

(** ** Object literals and property paths *)

(** [{...o, p1: x1, ..., pn: xn}]: the properties are set in the order they
    are written, a later one replacing an earlier one of the same name. *)
Definition literal {V} (o : gmap string V) (props : list (string * option V))
  : gmap string V :=
  foldl (fun acc px => set px.1 px.2 acc) o props.

Notation "x # p" := (get x p) (at level 25, left associativity).

(** ** core/state.ts: migration *)

(** [ssh: { user: stateV0.ssh.user, privateKeyPath: stateV0.ssh.privateKeyPath }] *)
Definition sshConfig (stateV0 : jsval) : jsval :=
  Some (VObj (literal ∅
    [("user", stateV0 # "ssh" # "user");
     ("privateKeyPath", stateV0 # "ssh" # "privateKeyPath")])).

(** The object literal common to the four provider branches:
    [{ name, version: "1", provision: { provider, output, config } }]. *)
Definition stateV1 (name : jsval) (providerName : string)
    (output config : gmap string value) : jsval :=
  Some (VObj (literal ∅
    [("name", name);
     ("version", Some (VStr "1"));
     ("provision", Some (VObj (literal ∅
        [("provider", Some (VStr providerName));
         ("output", Some (VObj output));
         ("config", Some (VObj config))])))])).

(** [ensureStateV1(rawState)], state.ts:152-332.  Only the first read,
    [rawState.version], can throw: every later receiver is [rawState]
    itself, or a value that has just been tested truthy, or is read
    through [?.]; those reads are written [#]. *)
Definition ensureStateV1 (rawState : jsval) : result jsval :=
  version ← read rawState "version";
  if truthy version then
    if loose_neq_1 version then Err UnknownStateVersion
    else Ok rawState
  else
    let stateV0 := rawState in
    let name := stateV0 # "name" in
    let providerV0 := stateV0 # "provider" in
    if negb (truthy (stateV0 # "host")) then Err MissingHost
    else if negb (truthy (stateV0 # "ssh"))
         || negb (truthy (stateV0 # "ssh" # "user"))
         || negb (truthy (stateV0 # "ssh" # "privateKeyPath"))
    then Err MissingSshConfig
    else if truthy (providerV0 # "aws") then
      let providerName := CLOUDYPAD_PROVIDER_AWS in
      if negb (truthy (providerV0 # "aws" # "provisionArgs"))
         || negb (truthy (providerV0 # "aws" # "provisionArgs" # "create"))
      then Err (MissingProvisionArgs "AWS")
      else if negb (truthy (providerV0 # "aws" # "instanceId"))
      then Err (MissingProviderField "AWS" "instance ID")
      else Ok (stateV1 name providerName
        (literal ∅
           [("host", stateV0 # "host");
            ("instanceId", providerV0 # "aws" # "instanceId")])
        (literal (spread (providerV0 # "aws" # "provisionArgs" # "create"))
           [("ssh", sshConfig stateV0)]))
    else if truthy (providerV0 # "azure") then
      let providerName := CLOUDYPAD_PROVIDER_AZURE in
      if negb (truthy (providerV0 # "azure" # "provisionArgs"))
         || negb (truthy (providerV0 # "azure" # "provisionArgs" # "create"))
      then Err (MissingProvisionArgs "Azure")
      else if negb (truthy (providerV0 # "azure" # "vmName"))
      then Err (MissingProviderField "Azure" "VM Name")
      else if negb (truthy (providerV0 # "azure" # "resourceGroupName"))
      then Err (MissingProviderField "Azure" "Resource Group")
      else Ok (stateV1 name providerName
        (literal ∅
           [("host", stateV0 # "host");
            ("resourceGroupName", providerV0 # "azure" # "resourceGroupName");
            ("vmName", providerV0 # "azure" # "vmName")])
        (literal (spread (providerV0 # "azure" # "provisionArgs" # "create"))
           [("ssh", sshConfig stateV0)]))
    else if truthy (providerV0 # "gcp") then
      let providerName := CLOUDYPAD_PROVIDER_GCP in
      if negb (truthy (providerV0 # "gcp" # "provisionArgs"))
         || negb (truthy (providerV0 # "gcp" # "provisionArgs" # "create"))
      then Err (MissingProvisionArgs "Google")
      else if negb (truthy (providerV0 # "gcp" # "instanceName"))
      then Err (MissingProviderField "Google" "instance name")
      else Ok (stateV1 name providerName
        (literal ∅
           [("host", stateV0 # "host");
            ("instanceName", providerV0 # "gcp" # "instanceName")])
        (literal (spread (providerV0 # "gcp" # "provisionArgs" # "create"))
           [("ssh", sshConfig stateV0)]))
    else if truthy (providerV0 # "paperspace") then
      let providerName := CLOUDYPAD_PROVIDER_PAPERSPACE in
      if negb (truthy (providerV0 # "paperspace" # "provisionArgs"))
         || negb (truthy (providerV0 # "paperspace" # "provisionArgs" # "create"))
      then Err (MissingProvisionArgs "Paperspace")
      else if negb (truthy (providerV0 # "paperspace" # "machineId"))
      then Err (MissingProviderField "Paperspace" "machine ID")
      else if negb (truthy (providerV0 # "paperspace" # "apiKey"))
              && negb (truthy (providerV0 # "paperspace" # "provisionArgs" # "apiKey"))
      then Err MissingPaperspaceApiKey
      else Ok (stateV1 name providerName
        (literal ∅
           [("host", stateV0 # "host");
            ("machineId", providerV0 # "paperspace" # "machineId")])
        (literal (spread (providerV0 # "paperspace" # "provisionArgs" # "create"))
           [("apiKey", coalesce (providerV0 # "paperspace" # "apiKey")
                         (providerV0 # "paperspace" # "provisionArgs" # "apiKey"));
            ("ssh", sshConfig stateV0)]))
    else Err UnknownProviderInState.

(** ** The migration on a heap *)

(** The same [ensureStateV1], embedded a second time with objects held by
    reference in a heap, so that what the function does to the objects of
    the document it is given can be stated.  An object literal allocates a
    new object; no statement of state.ts:152-332 assigns to a property.
    Arrays, which the function never writes nor compares, remain values. *)
Module Heap.

Abbreviation loc := nat.

Inductive value : Type :=
  | VNull
  | VBool (b : bool)
  | VNum (n : Z)
  | VStr (s : string)
  | VArr (l : list value)
  | VRef (l : loc).

Abbreviation jsval := (option value).

(** The objects, by reference: each a map from property names. *)
Abbreviation heap := (gmap loc (gmap string value)).

Definition truthy (v : jsval) : bool :=
  match v with
  | None => false
  | Some VNull => false
  | Some (VBool b) => b
  | Some (VNum n) => negb (n =? 0)
  | Some (VStr s) => negb (String.eqb s "")
  | Some (VArr _) => true
  | Some (VRef _) => true
  end.

Definition nullish (v : jsval) : bool :=
  match v with
  | None | Some VNull => true
  | _ => false
  end.

Definition coalesce (x y : jsval) : jsval :=
  if nullish x then y else x.

(** [x?.p], read in the heap [h] *)
Definition get (h : heap) (v : jsval) (p : string) : jsval :=
  match v with
  | Some (VRef l) => h !! l ≫= (.!! p)
  | _ => None
  end.

Definition read (h : heap) (v : jsval) (p : string) : result jsval :=
  if nullish v then Err TypeError else Ok (get h v p).

(** [x?.p1?.p2...] *)
Definition path (h : heap) (v : jsval) (ps : list string) : jsval :=
  foldl (get h) v ps.

Definition spread (h : heap) (v : jsval) : gmap string value :=
  match v with
  | Some (VRef l) => default ∅ (h !! l)
  | Some (VArr l) => indexed id l
  | Some (VStr s) => indexed VStr (chars s)
  | _ => ∅
  end.

Fixpoint to_string (v : value) : string :=
  match v with
  | VNull => "null"
  | VBool b => if b then "true" else "false"
  | VNum n => pretty n
  | VStr s => s
  | VArr l =>
      String.concat ","
        (map (fun x => match x with VNull => "" | _ => to_string x end) l)
  | VRef _ => "[object Object]"
  end.

Definition loose_neq_1 (v : jsval) : bool :=
  match v with
  | None | Some VNull => true
  | Some (VBool b) => negb b
  | Some (VNum n) => negb (n =? 1)
  | Some (VStr s) => negb (String.eqb s "1")
  | Some (VArr l) => negb (String.eqb (to_string (VArr l)) "1")
  | Some (VRef _) => true
  end.

(** A computation that allocates. *)
Definition Alloc (A : Type) : Type := heap -> A * heap.

#[global] Instance Alloc_ret : MRet Alloc := fun A a h => (a, h).
#[global] Instance Alloc_bind : MBind Alloc := fun A B k m h =>
  let (a, h') := m h in k a h'.

(** The heap at this point of the computation. *)
Definition current : Alloc heap := fun h => (h, h).

(** An object literal evaluated to the properties [o]: a new object, at
    a location the heap does not use. *)
Definition alloc (o : gmap string value) : Alloc jsval := fun h =>
  let l := fresh (dom h) in (Some (VRef l), <[l := o]> h).

(** The object literal of a provider branch (state.ts:194-212, 231-250,
    266-283, 303-321), its properties evaluated in the order they are
    written: [output] with its properties [ids] after the host, then
    [config] from the spread of [create], the properties [extra], and
    [ssh]. *)
Definition stateV1 (stateV0 name : jsval) (providerName : string)
    (provider : list string) (ids : list (string * string))
    (extra : heap -> list (string * jsval)) : Alloc jsval :=
  h ← current;
  output ← alloc (literal ∅
    (("host", get h stateV0 "host")
     :: map (fun '(p, q) => (p, path h stateV0 (provider ++ [q]))) ids));
  h ← current;
  let config :=
    literal (spread h (path h stateV0 (provider ++ ["provisionArgs"; "create"])))
      (extra h) in
  ssh ← alloc (literal ∅
    [("user", path h stateV0 ["ssh"; "user"]);
     ("privateKeyPath", path h stateV0 ["ssh"; "privateKeyPath"])]);
  config ← alloc (set "ssh" ssh config);
  provision ← alloc (literal ∅
    [("provider", Some (VStr providerName));
     ("output", output);
     ("config", config)]);
  alloc (literal ∅
    [("name", name);
     ("version", Some (VStr "1"));
     ("provision", provision)]).

Definition throw (e : error) : Alloc (result jsval) := mret (Err e).

Definition returns (m : Alloc jsval) : Alloc (result jsval) :=
  s ← m; mret (Ok s).

(** [ensureStateV1(rawState)], state.ts:152-332 *)
Definition ensureStateV1 (rawState : jsval) : Alloc (result jsval) :=
  h ← current;
  match read h rawState "version" with
  | Err e => throw e
  | Ok version =>
  if truthy version then
    if loose_neq_1 version then throw UnknownStateVersion
    else mret (M:=Alloc) (Ok rawState)
  else
    let stateV0 := rawState in
    let name := get h stateV0 "name" in
    let providerV0 := get h stateV0 "provider" in
    let at_ := path h stateV0 in
    if negb (truthy (at_ ["host"])) then throw MissingHost
    else if negb (truthy (at_ ["ssh"]))
         || negb (truthy (at_ ["ssh"; "user"]))
         || negb (truthy (at_ ["ssh"; "privateKeyPath"]))
    then throw MissingSshConfig
    else if truthy (at_ ["provider"; "aws"]) then
      if negb (truthy (at_ ["provider"; "aws"; "provisionArgs"]))
         || negb (truthy (at_ ["provider"; "aws"; "provisionArgs"; "create"]))
      then throw (MissingProvisionArgs "AWS")
      else if negb (truthy (at_ ["provider"; "aws"; "instanceId"]))
      then throw (MissingProviderField "AWS" "instance ID")
      else returns (stateV1 stateV0 name CLOUDYPAD_PROVIDER_AWS
             ["provider"; "aws"] [("instanceId", "instanceId")] (fun _ => []))
    else if truthy (at_ ["provider"; "azure"]) then
      if negb (truthy (at_ ["provider"; "azure"; "provisionArgs"]))
         || negb (truthy (at_ ["provider"; "azure"; "provisionArgs"; "create"]))
      then throw (MissingProvisionArgs "Azure")
      else if negb (truthy (at_ ["provider"; "azure"; "vmName"]))
      then throw (MissingProviderField "Azure" "VM Name")
      else if negb (truthy (at_ ["provider"; "azure"; "resourceGroupName"]))
      then throw (MissingProviderField "Azure" "Resource Group")
      else returns (stateV1 stateV0 name CLOUDYPAD_PROVIDER_AZURE
             ["provider"; "azure"]
             [("resourceGroupName", "resourceGroupName"); ("vmName", "vmName")]
             (fun _ => []))
    else if truthy (at_ ["provider"; "gcp"]) then
      if negb (truthy (at_ ["provider"; "gcp"; "provisionArgs"]))
         || negb (truthy (at_ ["provider"; "gcp"; "provisionArgs"; "create"]))
      then throw (MissingProvisionArgs "Google")
      else if negb (truthy (at_ ["provider"; "gcp"; "instanceName"]))
      then throw (MissingProviderField "Google" "instance name")
      else returns (stateV1 stateV0 name CLOUDYPAD_PROVIDER_GCP
             ["provider"; "gcp"] [("instanceName", "instanceName")] (fun _ => []))
    else if truthy (at_ ["provider"; "paperspace"]) then
      if negb (truthy (at_ ["provider"; "paperspace"; "provisionArgs"]))
         || negb (truthy (at_ ["provider"; "paperspace"; "provisionArgs"; "create"]))
      then throw (MissingProvisionArgs "Paperspace")
      else if negb (truthy (at_ ["provider"; "paperspace"; "machineId"]))
      then throw (MissingProviderField "Paperspace" "machine ID")
      else if negb (truthy (at_ ["provider"; "paperspace"; "apiKey"]))
              && negb (truthy (at_ ["provider"; "paperspace"; "provisionArgs"; "apiKey"]))
      then throw MissingPaperspaceApiKey
      else returns (stateV1 stateV0 name CLOUDYPAD_PROVIDER_PAPERSPACE
             ["provider"; "paperspace"] [("machineId", "machineId")]
             (fun h =>
                [("apiKey",
                  coalesce (path h stateV0 ["provider"; "paperspace"; "apiKey"])
                    (path h stateV0
                       ["provider"; "paperspace"; "provisionArgs"; "apiKey"]))]))
    else throw UnknownProviderInState
  end.

End Heap.

(** A heap value and the tree it stands for. *)
Inductive repr (h : Heap.heap) : Heap.value -> value -> Prop :=
  | repr_null : repr h Heap.VNull VNull
  | repr_bool b : repr h (Heap.VBool b) (VBool b)
  | repr_num n : repr h (Heap.VNum n) (VNum n)
  | repr_str s : repr h (Heap.VStr s) (VStr s)
  | repr_arr l l' :
      Forall2 (repr h) l l' -> repr h (Heap.VArr l) (VArr l')
  | repr_ref l o m :
      h !! l = Some o ->
      (forall p : string, option_Forall2 (repr h) (o !! p) (m !! p)) ->
      repr h (Heap.VRef l) (VObj m).

Abbreviation repr_opt h := (option_Forall2 (repr h)).

(** The properties of a heap object and those of the tree it stands for. *)
Definition repr_props (h : Heap.heap) (o : gmap string Heap.value)
    (m : gmap string value) : Prop :=
  forall p : string, repr_opt h (o !! p) (m !! p).

Section repr_induction.
Variable h : Heap.heap.
Variable P : Heap.value -> value -> Prop.
Hypothesis Pnull : P Heap.VNull VNull.
Hypothesis Pbool : forall b, P (Heap.VBool b) (VBool b).
Hypothesis Pnum : forall n, P (Heap.VNum n) (VNum n).
Hypothesis Pstr : forall s, P (Heap.VStr s) (VStr s).
Hypothesis Parr : forall l l',
  Forall2 (repr h) l l' -> Forall2 P l l' -> P (Heap.VArr l) (VArr l').
Hypothesis Pref : forall l o m,
  h !! l = Some o ->
  repr_props h o m ->
  (forall p : string, option_Forall2 P (o !! p) (m !! p)) ->
  P (Heap.VRef l) (VObj m).

(** Induction on [repr], through the elements of an array and the
    properties of an object. *)
Fixpoint repr_induction (x : Heap.value) (v : value) (H : repr h x v)
    {struct H} : P x v :=
  match H in repr _ x v return P x v with
  | repr_null _ => Pnull
  | repr_bool _ b => Pbool b
  | repr_num _ n => Pnum n
  | repr_str _ s => Pstr s
  | repr_arr _ l l' Hl =>
      Parr l l' Hl
        ((fix elements l l' (Hl : Forall2 (repr h) l l') : Forall2 P l l' :=
            match Hl with
            | @List.Forall2_nil _ _ _ => @List.Forall2_nil _ _ _
            | @List.Forall2_cons _ _ _ _ _ _ _ Hx Hl' =>
                @List.Forall2_cons _ _ _ _ _ _ _ (repr_induction _ _ Hx) (elements _ _ Hl')
            end) l l' Hl)
  | repr_ref _ l o m Hl Ho =>
      Pref l o m Hl Ho
        (fun p =>
           match Ho p in option_Forall2 _ a b return option_Forall2 P a b with
           | @Some_Forall2 _ _ _ _ _ Hx => @Some_Forall2 _ _ _ _ _ (repr_induction _ _ Hx)
           | @None_Forall2 _ _ _ => @None_Forall2 _ _ _
           end)
  end.
End repr_induction.

(** ** core/state.ts: the typed state *)

(** [InstanceStateV1<C, O>], state.ts:339-360.  [version] is the literal
    "1" and has no field here.  manager.ts, written against a later
    revision of the interface, reads the field [config] under the name
    [input]. *)
Record Provision : Type := {
  provider : string;
  output : jsval;
  config : value;
}.

Record InstanceStateV1 : Type := {
  name : string;
  provision : Provision;
}.

Abbreviation input := config (only parsing).

(** The JavaScript object a typed state is: what [yaml.dump(state)] is
    given. *)
Definition toDoc (state : InstanceStateV1) : value :=
  VObj (literal ∅
    [("version", Some (VStr "1"));
     ("name", Some (VStr state.(name)));
     ("provision", Some (VObj (literal ∅
        [("provider", Some (VStr state.(provision).(provider)));
         ("output", state.(provision).(output));
         ("config", Some state.(provision).(config))])))]).

(** [state.provision.output = output] *)
Definition set_output (o : jsval) (state : InstanceStateV1) : InstanceStateV1 :=
  {| name := state.(name);
     provision := {| provider := state.(provision).(provider);
                     output := o;
                     config := state.(provision).(config) |} |}.

(** ** The environment, the disk and YAML *)

(** [process.env] *)
Record Env : Type := {
  env_CLOUDYPAD_HOME : option string;
  env_HOME : option string;
}.

(** A variable of the environment is truthy when set and not empty. *)
Definition env_set (x : option string) : bool :=
  match x with
  | Some s => negb (String.eqb s "")
  | None => false
  end.

(** [path.join] and [path.resolve], on segments taken to be normalised
    already ([HOME] absolute, no "." or ".." in an instance name). *)
Definition path_join (a b : string) : string := a ++ "/" ++ b.
Definition path_resolve (p : string) : string := p.

(** [js-yaml], which is not part of these sources: an interface.  A file
    holds a [content]; [yaml.load] can throw, and can return undefined. *)
Class Yaml (content : Type) : Type := {
  yaml_dump : value -> content;
  yaml_load : content -> result jsval;
}.

(** What the store relies on: loading a dumped value gives it back. *)
Definition yaml_faithful `{Yaml content} : Prop :=
  forall v : value, yaml_load (yaml_dump v) = Ok (Some v).

(** The disk, as far as the store uses it: the directories, by path, and in
    each its files, by name.  Instance directories are taken not to lie
    inside one another. *)
Abbreviation Disk content := (gmap string (gmap string content)).

(** [getEnvironmentDataRootDir()], state.ts:22-32 *)
Definition getEnvironmentDataRootDir (env : Env) : result string :=
  if env_set env.(env_CLOUDYPAD_HOME) then
    Ok (default "" env.(env_CLOUDYPAD_HOME))
  else
    if negb (env_set env.(env_HOME)) then Err NoDataRootDir
    else Ok (path_resolve (default "" env.(env_HOME) ++ "/.cloudypad")).

(** ** core/state.ts: [StateManager] *)

Module StateManager.

Record t : Type := { dataRootDir : string }.

(** [constructor(args?)] with no argument, state.ts:58-60 *)
Definition new (env : Env) : result t :=
  root ← getEnvironmentDataRootDir env;
  Ok {| dataRootDir := root |}.

(** [static default()], state.ts:50-52 *)
Definition default (env : Env) : result t := new env.

Definition getInstanceDir (this : t) (instanceName : string) : string :=
  path_join (path_join this.(dataRootDir) "instances") instanceName.

(** [interface StateManagerArgs], state.ts:34-41 *)
Record StateManagerArgs : Type := { args_dataRootDir : option string }.

(** [constructor(args?)], state.ts:58-60, with or without an argument:
    [args?.dataRootDir ?? getEnvironmentDataRootDir()]. *)
Definition constructor (args : option StateManagerArgs) (env : Env) : result t :=
  match args ≫= args_dataRootDir with
  | Some dir => Ok {| dataRootDir := dir |}
  | None =>
      root ← getEnvironmentDataRootDir env;
      Ok {| dataRootDir := root |}
  end.

(** state.ts:62-64 *)
Definition getDataRootDir (this : t) : string := this.(dataRootDir).

Section WithYaml.
Context `{Yaml content}.

(** [fs.existsSync(dir)] *)
Definition existsSync (dir : string) (disk : Disk content) : bool :=
  bool_decide (is_Some (disk !! dir)).

(** [fs.mkdirSync(dir, { recursive: true })] *)
Definition mkdirSync (dir : string) (disk : Disk content) : Disk content :=
  match disk !! dir with
  | Some _ => disk
  | None => <[dir := ∅]> disk
  end.

(** [fs.writeFileSync(path.join(dir, file), text)]: fails when the
    directory does not exist. *)
Definition writeFileSync (dir file : string) (text : content)
    (disk : Disk content) : result (Disk content) :=
  match disk !! dir with
  | Some files => Ok (<[dir := <[file := text]> files]> disk)
  | None => Err (NoSuchFile (path_join dir file))
  end.

(** [fs.readFileSync(path.join(dir, file))] *)
Definition readFileSync (dir file : string) (disk : Disk content)
    : result content :=
  match disk !! dir ≫= (.!! file) with
  | Some text => Ok text
  | None => Err (NoSuchFile (path_join dir file))
  end.

(** [fs.rmSync(dir, { recursive: true, force: true })] *)
Definition rmSync (dir : string) (disk : Disk content) : Disk content :=
  delete dir disk.

(** state.ts:90-96 *)
Definition instanceExists (this : t) (instanceName : string)
    (disk : Disk content) : bool :=
  existsSync (getInstanceDir this instanceName) disk.

(** state.ts:98-112 *)
Definition loadInstanceState (this : t) (instanceName : string)
    (disk : Disk content) : result jsval :=
  if negb (instanceExists this instanceName disk) then
    Err (InstanceDoesNotExist instanceName)
  else
    text ← readFileSync (getInstanceDir this instanceName) "config.yml" disk;
    rawState ← yaml_load text;
    ensureStateV1 rawState.

(** state.ts:124-136 *)
Definition ensureInstanceDirExists (this : t) (instanceName : string)
    (disk : Disk content) : Disk content :=
  let instanceDir := getInstanceDir this instanceName in
  if negb (existsSync instanceDir disk) then mkdirSync instanceDir disk
  else disk.

(** state.ts:114-122 *)
Definition persistState (this : t) (state : InstanceStateV1)
    (disk : Disk content) : result (Disk content) :=
  let disk := ensureInstanceDirExists this state.(name) disk in
  writeFileSync (getInstanceDir this state.(name)) "config.yml"
    (yaml_dump (toDoc state)) disk.

(** state.ts:138-144 *)
Definition removeInstanceDir (this : t) (instanceName : string)
    (disk : Disk content) : Disk content :=
  rmSync (getInstanceDir this instanceName) disk.

(** [fs.existsSync(path.join(dir, file))], for a file of a directory *)
Definition existsFileSync (dir file : string) (disk : Disk content) : bool :=
  bool_decide (is_Some (disk !! dir ≫= (.!! file))).

(** state.ts:74-88.  [fs.readdirSync], which lists the names in a
    directory or throws, is given by its outcome [readdirSync]: the disk
    as modelled holds the instance directories by their paths and not the
    listing of their parent.  The [catch] turns any exception into the
    empty list. *)
Definition listInstances (this : t)
    (readdirSync : string -> result (list string)) (disk : Disk content)
    : list string :=
  let instancesDirPath := path_join this.(dataRootDir) "instances" in
  match readdirSync instancesDirPath with
  | Ok instanceDirs =>
      List.filter
        (fun dir =>
           existsFileSync (path_join instancesDirPath dir) "config.yml" disk)
        instanceDirs
  | Err _ => []
  end.

End WithYaml.
End StateManager.

(** ** core/manager.ts: the sub-managers *)

(** [InstanceProvisionOptions] (core/provisioner.ts, not part of these
    sources): manager.ts reads only [autoApprove]. *)
Record InstanceProvisionOptions : Type := {
  autoApprove : option bool;
}.

(** The three collaborators, by the outcome of each of their methods; they
    are external and are taken not to touch the manager's state object nor
    the state directory. *)
Module InstanceProvisioner.
Record t : Type := {
  provision : option InstanceProvisionOptions -> result value;
  destroy : option InstanceProvisionOptions -> result unit;
}.
End InstanceProvisioner.

Module InstanceConfigurator.
Record t : Type := { configure : result unit }.
End InstanceConfigurator.

Module InstanceRunner.
Record t : Type := {
  start : result unit;
  stop : result unit;
  restart : result unit;
  pair : result unit;
}.
End InstanceRunner.

(** [interface SubManagerFactory], manager.ts:13-17 *)
Module SubManagerFactory.
Record t : Type := {
  buildProvisioner : InstanceStateV1 -> result InstanceProvisioner.t;
  buildRunner : InstanceStateV1 -> result InstanceRunner.t;
  buildConfigurator : InstanceStateV1 -> result InstanceConfigurator.t;
}.
End SubManagerFactory.

(** [abstract class AbstractSubManagerFactory], manager.ts:19-67: a factory
    from the three [doBuild...] methods of a provider. *)
Module AbstractSubManagerFactory.
Section Provider.
Variable doBuildProvisioner :
  string -> value -> jsval -> result InstanceProvisioner.t.
Variable doBuildRunner :
  string -> value -> jsval -> result InstanceRunner.t.
Variable doBuildConfigurator :
  string -> value -> jsval -> result InstanceConfigurator.t.

Definition buildProvisioner (state : InstanceStateV1)
    : result InstanceProvisioner.t :=
  doBuildProvisioner state.(name) state.(provision).(input)
    state.(provision).(output).

Definition buildRunner (state : InstanceStateV1)
    : result InstanceRunner.t :=
  if negb (truthy state.(provision).(output)) then
    Err (NoProvisionOutputForRunner state.(name))
  else
    doBuildRunner state.(name) state.(provision).(input)
      state.(provision).(output).

Definition buildConfigurator (state : InstanceStateV1)
    : result InstanceConfigurator.t :=
  if negb (truthy state.(provision).(output)) then
    Err NoProvisionOutputForConfigurator
  else
    doBuildConfigurator state.(name) state.(provision).(input)
      state.(provision).(output).

Definition factory : SubManagerFactory.t :=
  {| SubManagerFactory.buildProvisioner := buildProvisioner;
     SubManagerFactory.buildRunner := buildRunner;
     SubManagerFactory.buildConfigurator := buildConfigurator |}.
End Provider.
End AbstractSubManagerFactory.

(** ** core/manager.ts: [InstanceManager] *)

(** What an operation of the manager does that can be observed from
    outside, in the order it does it. *)
Inductive Event : Type :=
  | CallProvision (opts : option InstanceProvisionOptions)
  | CallDestroy (opts : option InstanceProvisionOptions)
  | CallConfigure
  | CallStart
  | CallStop
  | CallRestart
  | CallPair
  | CallConfirm
  (** the state document has been written to the instance's [config.yml] *)
  | Persisted (doc : value)
  (** the instance's directory has been removed *)
  | RemovedInstanceDir (instanceName : string).

(** The mutable world of a manager: its state object [this.state], the
    process environment, the disk, and the events so far. *)
Record Sys (content : Type) : Type := {
  state : InstanceStateV1;
  env : Env;
  disk : Disk content;
  trace : list Event;
}.
Arguments state {content} _.
Arguments env {content} _.
Arguments disk {content} _.
Arguments trace {content} _.

(** An [async] method: from a world, a returned value or an exception, and
    the world at that point. *)
Definition M (content A : Type) : Type := Sys content -> result A * Sys content.

#[export] Instance M_ret {content} : MRet (M content) := fun A a s => (Ok a, s).
#[export] Instance M_bind {content} : MBind (M content) := fun A B k m s =>
  match m s with
  | (Ok a, s') => k a s'
  | (Err e, s') => (Err e, s')
  end.

Module InstanceManager.
Section Manager.
Context `{Yaml content}.

(** [this.factory], and the answer of the prompt [confirm(...)] of
    [@inquirer/prompts]. *)
Variable factory : SubManagerFactory.t.
Variable confirm : result bool.

Definition getState : M content InstanceStateV1 := fun s => (Ok s.(state), s).

Definition emit (ev : Event) : M content unit := fun s =>
  (Ok tt, {| state := s.(state); env := s.(env); disk := s.(disk);
             trace := s.(trace) ++ [ev] |}).

(** The outcome of a step that does not touch the world. *)
Definition lift {A} (r : result A) : M content A := fun s => (r, s).

(** A call of a collaborator: it is recorded, then returns or throws. *)
Definition call {A} (ev : Event) (r : result A) : M content A :=
  emit ev;; lift r.

(** [this.state.provision.output = o] *)
Definition assignOutput (o : jsval) : M content unit := fun s =>
  (Ok tt, {| state := set_output o s.(state); env := s.(env);
             disk := s.(disk); trace := s.(trace) |}).

(** manager.ts:180-190 *)
Definition buildRunner : M content InstanceRunner.t :=
  state ← getState; lift (factory.(SubManagerFactory.buildRunner) state).

Definition buildConfigurator : M content InstanceConfigurator.t :=
  state ← getState; lift (factory.(SubManagerFactory.buildConfigurator) state).

Definition buildProvisioner : M content InstanceProvisioner.t :=
  state ← getState; lift (factory.(SubManagerFactory.buildProvisioner) state).

(** [persistState()], manager.ts:196-198 *)
Definition persistState : M content unit := fun s =>
  match StateManager.default s.(env) with
  | Err e => (Err e, s)
  | Ok sm =>
      match StateManager.persistState sm s.(state) s.(disk) with
      | Err e => (Err e, s)
      | Ok disk' =>
          (Ok tt, {| state := s.(state); env := s.(env); disk := disk';
                     trace := s.(trace) ++ [Persisted (toDoc s.(state))] |})
      end
  end.

(** [StateManager.default().removeInstanceDir(this.state.name)] *)
Definition removeInstanceDir : M content unit := fun s =>
  match StateManager.default s.(env) with
  | Err e => (Err e, s)
  | Ok sm =>
      (Ok tt, {| state := s.(state); env := s.(env);
                 disk := StateManager.removeInstanceDir sm s.(state).(name) s.(disk);
                 trace := s.(trace) ++ [RemovedInstanceDir s.(state).(name)] |})
  end.

(** manager.ts:135-139 *)
Definition configure : M content unit :=
  configurator ← buildConfigurator;
  call CallConfigure configurator.(InstanceConfigurator.configure);;
  persistState.

(** manager.ts:141-146 *)
Definition provision (opts : option InstanceProvisionOptions) : M content unit :=
  provisioner ← buildProvisioner;
  output ← call (CallProvision opts) (provisioner.(InstanceProvisioner.provision) opts);
  assignOutput (Some output);;
  persistState.

(** manager.ts:148-154 *)
Definition destroy (opts : option InstanceProvisionOptions) : M content unit :=
  provisioner ← buildProvisioner;
  call (CallDestroy opts) (provisioner.(InstanceProvisioner.destroy) opts);;
  assignOutput undefined;;
  persistState;;
  removeInstanceDir.

(** manager.ts:156-178 *)
Definition start : M content unit :=
  runner ← buildRunner;
  call CallStart runner.(InstanceRunner.start);;
  persistState.

Definition stop : M content unit :=
  runner ← buildRunner;
  call CallStop runner.(InstanceRunner.stop);;
  persistState.

Definition restart : M content unit :=
  runner ← buildRunner;
  call CallRestart runner.(InstanceRunner.restart);;
  persistState.

Definition pair : M content unit :=
  runner ← buildRunner;
  call CallPair runner.(InstanceRunner.pair);;
  persistState.

(** [opts?.autoApprove], as a condition *)
Definition autoApproved (opts : option InstanceProvisionOptions) : bool :=
  match opts ≫= autoApprove with
  | Some b => b
  | None => false
  end.

(** manager.ts:104-133; the calls of the logger are left out. *)
Definition initialize (opts : option InstanceProvisionOptions) : M content unit :=
  provision opts;;
  configure;;
  doPair ← (if autoApproved opts then mret true else call CallConfirm confirm);
  if (doPair : bool) then pair else mret tt.

End Manager.
End InstanceManager.

(** ** tools/pulumi/client.ts: [InstancePulumiClient] *)

(** The abstract Pulumi client, state.ts:474-618 in these sources. *)

(** [s.startsWith(searchString)] and [s.slice(start)] *)
Definition startsWith (s searchString : string) : bool :=
  String.prefix searchString s.

Fixpoint slice (s : string) (start : nat) {struct start} : string :=
  match start with
  | O => s
  | S n =>
      match s with
      | String _ s' => slice s' n
      | EmptyString => EmptyString
      end
  end.

(** The variables of [process.env] that the client reads itself. *)
Record PulumiEnv : Type := {
  env_PULUMI_BACKEND_URL : option string;
  env_PULUMI_CONFIG_PASSPHRASE : option string;
}.

(** A [Stack] of [@pulumi/pulumi/automation], which is not part of these
    sources: by the outcome of each of the methods the client calls. *)
Module Stack.
Record t : Type := {
  getAllConfig : result value;
  cancel : result unit;
  up : result value;
  outputs : result value;
  preview : result value;
  refresh : result value;
  destroy : result value;
}.
End Stack.

(** The calls the client makes to the Pulumi automation library, with the
    options that matter: the environment given to the workspace, [refresh]
    for an update and a preview, [remove] for a destruction. *)
Inductive PulumiCall : Type :=
  | CreateOrSelectStack (stackName projectName : string)
      (PULUMI_BACKEND_URL PULUMI_CONFIG_PASSPHRASE : string)
  | StackGetAllConfig
  | StackCancel
  | StackUp (refresh : bool)
  | StackOutputs
  | StackPreview (refresh : bool)
  | StackRefresh
  | StackDestroy (remove : bool).

(** The mutable world of a client: its field [this.stack], the process
    environment, the disk, and the calls so far. *)
Record PulumiSys (content : Type) : Type := {
  stack : option Stack.t;
  processEnv : PulumiEnv;
  files : Disk content;
  calls : list PulumiCall;
}.
Arguments stack {content} _.
Arguments processEnv {content} _.
Arguments files {content} _.
Arguments calls {content} _.

Definition P (content A : Type) : Type :=
  PulumiSys content -> result A * PulumiSys content.

#[export] Instance P_ret {content} : MRet (P content) := fun A a w => (Ok a, w).
#[export] Instance P_bind {content} : MBind (P content) := fun A B k m w =>
  match m w with
  | (Ok a, w') => k a w'
  | (Err e, w') => (Err e, w')
  end.

Module InstancePulumiClient.
Section Client.
Context {content : Type}.

(** [PulumiFn], and the two type parameters of the class. *)
Variable PulumiFn : Type.
Variable ConfigType : Type.
Variable OutputType : Type.

(** The read-only fields of a client. *)
Record t : Type := {
  program : PulumiFn;
  projectName : string;
  stackName : string;
  stateManager : StateManager.t;
}.

(** [LocalWorkspace.createOrSelectStack(pulumiArgs, opts)], by its outcome
    for the stack name, the project name, the program and the two
    variables of [opts.envVars]; and the two abstract methods. *)
Variable createOrSelectStack :
  string -> string -> PulumiFn -> string -> string -> result Stack.t.
Variable doSetConfig : ConfigType -> result unit.
Variable buildTypedOutput : value -> result OutputType.

(** [constructor(args)], state.ts:492-498 *)
Definition constructor (program : PulumiFn) (projectName stackName : string)
    (env : Env) : result t :=
  stateManager ← StateManager.default env;
  Ok {| program := program; projectName := projectName;
        stackName := stackName; stateManager := stateManager |}.

Definition getField : P content (option Stack.t) := fun w => (Ok w.(stack), w).

(** [this.stack = s] *)
Definition assignStack (s : Stack.t) : P content unit := fun w =>
  (Ok tt, {| stack := Some s; processEnv := w.(processEnv);
             files := w.(files); calls := w.(calls) |}).

Definition getProcessEnv : P content PulumiEnv := fun w => (Ok w.(processEnv), w).

(** The outcome of a step that does not touch the world. *)
Definition lift {A} (r : result A) : P content A := fun w => (r, w).

Definition throw {A} (e : error) : P content A := lift (Err e).

(** A call of the library: it is recorded, then returns or throws. *)
Definition call {A} (c : PulumiCall) (r : result A) : P content A := fun w =>
  (r, {| stack := w.(stack); processEnv := w.(processEnv);
         files := w.(files); calls := w.(calls) ++ [c] |}).

(** [if (!fs.existsSync(dir)) fs.mkdirSync(dir, { recursive: true })] *)
Definition ensureDir (dir : string) : P content unit := fun w =>
  (Ok tt, {| stack := w.(stack); processEnv := w.(processEnv);
             files := if negb (StateManager.existsSync dir w.(files))
                      then StateManager.mkdirSync dir w.(files)
                      else w.(files);
             calls := w.(calls) |}).

(** state.ts:516-555 *)
Definition initStack (this : t) : P content Stack.t :=
  env ← getProcessEnv;
  let backendUrl :=
    default ("file://" ++ StateManager.getDataRootDir this.(stateManager)
               ++ "/pulumi-backend")
      env.(env_PULUMI_BACKEND_URL) in
  let configPassphrase := default "" env.(env_PULUMI_CONFIG_PASSPHRASE) in
  stack ← getField;
  (if stack is Some _ then
     throw (Thrown ("Stack " ++ this.(stackName) ++ " for project "
                      ++ this.(projectName)
                      ++ " has already been initialized. This is probably an internal bug."))
   else mret tt);;
  (if startsWith backendUrl "file://" then
     let pulumiBackendDir := slice backendUrl (String.length "file://") in
     ensureDir pulumiBackendDir
   else mret tt);;
  call (CreateOrSelectStack this.(stackName) this.(projectName)
          backendUrl configPassphrase)
    (createOrSelectStack this.(stackName) this.(projectName) this.(program)
       backendUrl configPassphrase).

(** state.ts:500-505 *)
Definition getStack (this : t) : P content Stack.t :=
  stack ← getField;
  match stack with
  | None =>
      stack ← initStack this;
      assignStack stack;;
      mret stack
  | Some stack => mret stack
  end.

(** state.ts:507-510 *)
Definition setConfig (config : ConfigType) : P content unit :=
  lift (doSetConfig config).

(** state.ts:557-579; [stack.getAllConfig()] is awaited for the argument
    of the logger. *)
Definition up (this : t) : P content OutputType :=
  stack ← getStack this;
  call StackGetAllConfig stack.(Stack.getAllConfig);;
  call StackCancel stack.(Stack.cancel);;
  upRes ← call (StackUp true) stack.(Stack.up);
  outputs ← call StackOutputs stack.(Stack.outputs);
  lift (buildTypedOutput outputs).

(** state.ts:581-598 *)
Definition preview (this : t) : P content value :=
  stack ← getStack this;
  call StackGetAllConfig stack.(Stack.getAllConfig);;
  call StackCancel stack.(Stack.cancel);;
  prevRes ← call (StackPreview true) stack.(Stack.preview);
  mret prevRes.

(** state.ts:600-617 *)
Definition destroy (this : t) : P content unit :=
  stack ← getStack this;
  call StackCancel stack.(Stack.cancel);;
  refreshRes ← call StackRefresh stack.(Stack.refresh);
  destroyRes ← call (StackDestroy true) stack.(Stack.destroy);
  mret tt.

End Client.

Arguments program {PulumiFn} _.
Arguments projectName {PulumiFn} _.
Arguments stackName {PulumiFn} _.
Arguments stateManager {PulumiFn} _.
Arguments constructor {PulumiFn} _ _ _ _.
Arguments initStack {content PulumiFn} _ _.
Arguments getStack {content PulumiFn} _ _.
Arguments setConfig {content ConfigType} _ _.
Arguments up {content PulumiFn OutputType} _ _ _.
Arguments preview {content PulumiFn} _ _.
Arguments destroy {content PulumiFn} _ _.
End InstancePulumiClient.

(** * Vocabulary of the specification *)

(** ** Migration *)

(** The provider sub-objects the migration knows, in the order it looks for
    them (state.ts:184, 215, 254, 287). *)
Definition recognized_providers : list string :=
  [CLOUDYPAD_PROVIDER_AWS; CLOUDYPAD_PROVIDER_AZURE; CLOUDYPAD_PROVIDER_GCP;
   CLOUDYPAD_PROVIDER_PAPERSPACE].


Definition populated (d : jsval) (p : string) : bool :=
  truthy (d # "provider" # p).

Definition populated_providers (d : jsval) : list string :=
  List.filter (populated d) recognized_providers.

Definition fails_with {A} (c : error_class) (r : result A) : Prop :=
  match r with
  | Err e => classify e = c
  | Ok _ => False
  end.







(** *** Example documents *)

Definition obj (props : list (string * jsval)) : jsval :=
  Some (VObj (literal ∅ props)).

Definition str (s : string) : jsval := Some (VStr s).

Definition ssh_u_k : jsval := obj [("user", str "u"); ("privateKeyPath", str "/k")].

Definition create_args : jsval :=
  obj [("machineType", str "P5000"); ("diskSize", Some (VNum 100))].

(** A legacy document named "x", for the provider sub-objects [providers]. *)
Definition legacy_doc (providers : list (string * jsval)) : jsval :=
  obj [("name", str "x"); ("host", str "h"); ("ssh", ssh_u_k);
       ("provider", obj providers)].

Definition aws_doc : jsval :=
  legacy_doc
    [("aws", obj [("instanceId", str "i-9");
                  ("provisionArgs", obj [("create", create_args)])])].


(** No provider sub-object, and no host either. *)
Definition no_provider_no_host_doc : jsval :=
  obj [("name", str "x"); ("ssh", ssh_u_k); ("provider", obj [])].



(** Paperspace with an empty API key at the provider level and a key in
    [provisionArgs]. *)
Definition paperspace_empty_key_doc : jsval :=
  legacy_doc
    [("paperspace", obj [("machineId", str "m-1"); ("apiKey", str "");
                         ("provisionArgs", obj [("apiKey", str "key");
                                                ("create", create_args)])])].

(** Paperspace with an empty API key at the provider level and none in
    [provisionArgs]. *)
Definition paperspace_only_empty_key_doc : jsval :=
  legacy_doc
    [("paperspace", obj [("machineId", str "m-1"); ("apiKey", str "");
                         ("provisionArgs", obj [("create", create_args)])])].

(** A document that declares version "1" and nothing else. *)
Definition bare_v1_doc : jsval := obj [("version", str "1")].

(** ** The migration on a heap *)

(** Two lists of properties, of the same names, the values of the first
    standing for the values of the second. *)
Definition repr_list (h : Heap.heap) :
    list (string * Heap.jsval) -> list (string * jsval) -> Prop :=
  Forall2 (fun a b => a.1 = b.1 /\ repr_opt h a.2 b.2).

(** A computation that leaves every object of the heap as it is. *)
Definition extending {A} (m : Heap.Alloc A) : Prop :=
  forall h, h ⊆ (m h).2.

(** A computation that moreover returns an object that was not in the
    heap. *)
Definition allocating (m : Heap.Alloc Heap.jsval) : Prop :=
  forall h, h ⊆ (m h).2 /\ exists l, (m h).1 = Some (Heap.VRef l) /\ h !! l = None.

(** The outcome [r] of a computation from the heap [h] is an error, or an
    object that was not in [h]. *)
Definition new_in (h : Heap.heap) (r : result Heap.jsval * Heap.heap) : Prop :=
  match r.1 with
  | Ok s => exists l, s = Some (Heap.VRef l) /\ h !! l = None
  | Err _ => True
  end.


(** ** The store and the manager *)

Section Vocabulary.
Context `{Yaml content}.

(** The disk after the state [st] has been written: the instance's
    directory, created if it was not there, holds [config.yml] with the
    dumped state, next to whatever it held. *)
Definition written (sm : StateManager.t) (st : InstanceStateV1)
    (disk : Disk content) : Disk content :=
  let dir := StateManager.getInstanceDir sm st.(name) in
  <[dir := <["config.yml" := yaml_dump (toDoc st)]> (default ∅ (disk !! dir))]> disk.

(** Persisting the states [sts], one after the other. *)
Definition persistAll (sm : StateManager.t) (sts : list InstanceStateV1)
    (disk : Disk content) : result (Disk content) :=
  foldl (fun r st => disk ← r; StateManager.persistState sm st disk)
    (Ok disk) sts.

(** The world [s] with another state object, disk and trace. *)
Definition with_ (s : Sys content) (st : InstanceStateV1) (d : Disk content)
    (evs : list Event) : Sys content :=
  {| state := st; env := s.(env); disk := d; trace := s.(trace) ++ evs |}.

(** The events of a pairing by the runner [rn]: the call, and the write
    of the state when the call returns. *)
Definition pairing (rn : InstanceRunner.t) (st : InstanceStateV1) : list Event :=
  CallPair ::
  match rn.(InstanceRunner.pair) with
  | Ok _ => [Persisted (toDoc st)]
  | Err _ => []
  end.

End Vocabulary.

(** ** The Pulumi client *)

(** The world [w] after the calls [cs] to the Pulumi library, on the disk
    [d]. *)
Definition called {content} (w : PulumiSys content) (d : Disk content)
    (cs : list PulumiCall) : PulumiSys content :=
  {| stack := w.(stack); processEnv := w.(processEnv); files := d;
     calls := w.(calls) ++ cs |}.

(** The world [w] once the client holds the stack [st]. *)
Definition holding {content} (st : Stack.t) (w : PulumiSys content)
    : PulumiSys content :=
  {| stack := Some st; processEnv := w.(processEnv); files := w.(files);
     calls := w.(calls) |}.

(** The backend a client uses: [PULUMI_BACKEND_URL] when the variable is
    set, the directory [pulumi-backend] of the data root otherwise. *)
Definition backendUrl_of {PulumiFn} (this : InstancePulumiClient.t PulumiFn)
    (env : PulumiEnv) : string :=
  default ("file://" ++ this.(InstancePulumiClient.stateManager).(StateManager.dataRootDir)
             ++ "/pulumi-backend")
    env.(env_PULUMI_BACKEND_URL).

(** The disk once the directory [dir] is there. *)
Definition with_directory {content} (dir : string) (d : Disk content)
    : Disk content :=
  match d !! dir with
  | Some _ => d
  | None => <[dir := ∅]> d
  end.

(** The disk once [initStack] has seen to the directory of a backend on
    the file system. *)
Definition backend_ensured {content PulumiFn}
    (this : InstancePulumiClient.t PulumiFn) (w : PulumiSys content)
    : Disk content :=
  let url := backendUrl_of this w.(processEnv) in
  if startsWith url "file://"
  then with_directory (slice url 7) w.(files)
  else w.(files).

(** A call that changes the resources of a stack. *)
Definition changes_resources (c : PulumiCall) : bool :=
  match c with
  | StackUp _ | StackRefresh | StackDestroy _ => true
  | _ => false
  end.

(** ** Example worlds *)

(** A YAML library in which a file holds the value itself. *)
Definition plain_yaml : Yaml value :=
  {| yaml_dump := id; yaml_load := fun text => Ok (Some text) |}.

Definition aws_output : value :=
  VObj (literal ∅ [("host", str "1.2.3.4"); ("instanceId", str "i-1")]).

Definition aws_input : value :=
  VObj (literal ∅ [("instanceType", str "g4dn.xlarge"); ("ssh", ssh_u_k)]).

(** The instance "box1" of provider [aws], not provisioned. *)
Definition box1 : InstanceStateV1 :=
  {| name := "box1";
     provision := {| provider := CLOUDYPAD_PROVIDER_AWS;
                     output := undefined;
                     config := aws_input |} |}.

(** A later state of "box1", provisioned. *)
Definition box1_provisioned : InstanceStateV1 := set_output (Some aws_output) box1.

(** Collaborators that succeed. *)
Definition stub_provisioner : InstanceProvisioner.t :=
  {| InstanceProvisioner.provision := fun _ => Ok aws_output;
     InstanceProvisioner.destroy := fun _ => Ok tt |}.

Definition stub_configurator : InstanceConfigurator.t :=
  {| InstanceConfigurator.configure := Ok tt |}.

Definition stub_runner : InstanceRunner.t :=
  {| InstanceRunner.start := Ok tt; InstanceRunner.stop := Ok tt;
     InstanceRunner.restart := Ok tt; InstanceRunner.pair := Ok tt |}.

Definition stub_factory : SubManagerFactory.t :=
  AbstractSubManagerFactory.factory
    (fun _ _ _ => Ok stub_provisioner)
    (fun _ _ _ => Ok stub_runner)
    (fun _ _ _ => Ok stub_configurator).

(** A provisioner that fails. *)
Definition failing_provisioner : InstanceProvisioner.t :=
  {| InstanceProvisioner.provision := fun _ => Err (Thrown "stack update failed");
     InstanceProvisioner.destroy := fun _ => Err (Thrown "stack destroy failed") |}.

Definition failing_factory : SubManagerFactory.t :=
  AbstractSubManagerFactory.factory
    (fun _ _ _ => Ok failing_provisioner)
    (fun _ _ _ => Ok stub_runner)
    (fun _ _ _ => Ok stub_configurator).

Definition home_env : Env :=
  {| env_CLOUDYPAD_HOME := None; env_HOME := Some "/home/u" |}.

Definition home_manager : StateManager.t :=
  {| StateManager.dataRootDir := "/home/u/.cloudypad" |}.

(** A world with an empty disk, holding the state [st]. *)
Definition world (st : InstanceStateV1) : Sys value :=
  {| state := st; env := home_env; disk := ∅; trace := [] |}.

(** [{ autoApprove: true }] *)
Definition yes : option InstanceProvisionOptions :=
  Some {| autoApprove := Some true |}.

(** The heap whose objects, at the locations 0, 1, ..., have the
    properties [objects]. *)
Definition heap_of (objects : list (list (string * Heap.jsval))) : Heap.heap :=
  list_to_map (imap (fun l props => (l, literal ∅ props)) objects).

(** The objects of the document [aws_doc], the document itself first. *)
Definition aws_objects : list (list (string * Heap.jsval)) :=
  [[("name", Some (Heap.VStr "x")); ("host", Some (Heap.VStr "h"));
    ("ssh", Some (Heap.VRef 1)); ("provider", Some (Heap.VRef 2))];
   [("user", Some (Heap.VStr "u")); ("privateKeyPath", Some (Heap.VStr "/k"))];
   [("aws", Some (Heap.VRef 3))];
   [("instanceId", Some (Heap.VStr "i-9")); ("provisionArgs", Some (Heap.VRef 4))];
   [("create", Some (Heap.VRef 5))];
   [("machineType", Some (Heap.VStr "P5000")); ("diskSize", Some (Heap.VNum 100))]].

Definition aws_heap : Heap.heap := heap_of aws_objects.

(** A heap that holds the document [bare_v1_doc]. *)
Definition v1_heap : Heap.heap :=
  heap_of [[("version", Some (Heap.VStr "1"))]].

(** *** Further examples *)


Definition no_home_env : Env :=
  {| env_CLOUDYPAD_HOME := Some ""; env_HOME := None |}.

(** A world with an empty disk whose environment names no data root. *)
Definition homeless_world (st : InstanceStateV1) : Sys value :=
  {| state := st; env := no_home_env; disk := ∅; trace := [] |}.


Definition box1_dir : string := "/home/u/.cloudypad/instances/box1".
Definition box2_dir : string := "/home/u/.cloudypad/instances/box2".


Definition empty_box1_disk : Disk value := {[ box1_dir := ∅ ]}.

Definition null_box1_disk : Disk value :=
  {[ box1_dir := {[ "config.yml" := VNull ]} ]}.

Definition listed_disk : Disk value :=
  <[ box2_dir := ∅ ]> {[ box1_dir := {[ "config.yml" := toDoc box1 ]} ]}.

(** A listing of the instances directory: two directories and a file. *)
Definition listing (dir : string) : result (list string) :=
  Ok ["box1"; "box2"; "README.md"].


Definition zero_version_aws : gmap string value :=
  literal ∅
    [("version", Some (VNum 0)); ("name", str "x"); ("host", str "h");
     ("ssh", ssh_u_k);
     ("provider",
      obj [("aws", obj [("instanceId", str "i-9");
                        ("provisionArgs", obj [("create", create_args)])])])].

(** The state that [aws_doc] migrates to. *)
Definition aws_state : jsval :=
  stateV1 (str "x") CLOUDYPAD_PROVIDER_AWS
    (literal ∅ [("host", str "h"); ("instanceId", str "i-9")])
    (literal (spread create_args) [("ssh", ssh_u_k)]).

(** A configurator that fails, behind a provisioner that succeeds. *)
Definition failing_configurator : InstanceConfigurator.t :=
  {| InstanceConfigurator.configure := Err (Thrown "playbook failed") |}.

Definition unconfigurable_factory : SubManagerFactory.t :=
  AbstractSubManagerFactory.factory
    (fun _ _ _ => Ok stub_provisioner)
    (fun _ _ _ => Ok stub_runner)
    (fun _ _ _ => Ok failing_configurator).

(** A stack whose calls return; one whose [cancel] throws; a client of
    the stack "box1"; and a world in which it holds no stack, on an empty
    disk, with no variable set. *)
Definition stub_stack : Stack.t :=
  {| Stack.getAllConfig := Ok (VObj ∅);
     Stack.cancel := Ok tt;
     Stack.up := Ok (VObj ∅);
     Stack.outputs := Ok aws_output;
     Stack.preview := Ok (VObj ∅);
     Stack.refresh := Ok (VObj ∅);
     Stack.destroy := Ok (VObj ∅) |}.

Definition locked_stack : Stack.t :=
  {| Stack.getAllConfig := Ok (VObj ∅);
     Stack.cancel := Err (Thrown "cancel failed");
     Stack.up := Ok (VObj ∅);
     Stack.outputs := Ok aws_output;
     Stack.preview := Ok (VObj ∅);
     Stack.refresh := Ok (VObj ∅);
     Stack.destroy := Ok (VObj ∅) |}.

Definition box1_client : InstancePulumiClient.t unit :=
  {| InstancePulumiClient.program := tt;
     InstancePulumiClient.projectName := "CloudyPad-AWS";
     InstancePulumiClient.stackName := "box1";
     InstancePulumiClient.stateManager := home_manager |}.

Definition workspace (st : Stack.t)
    : string -> string -> unit -> string -> string -> result Stack.t :=
  fun _ _ _ _ _ => Ok st.


Definition pulumi_world (url : option string) (st : option Stack.t)
    : PulumiSys value :=
  {| stack := st;
     processEnv := {| env_PULUMI_BACKEND_URL := url;
                      env_PULUMI_CONFIG_PASSPHRASE := None |};
     files := ∅; calls := [] |}.

(** The typed output of the stack: the outputs as they are. *)
Definition typed (outputs : value) : result value := Ok outputs.




(** * Properties *)

(** ** Reading *)

(** [x.p] does not throw on a truthy [x], nor on any [x] but null and
    undefined: [x # p] is then the value read. *)
Lemma read_not_nullish (x : jsval) (p : string) :
  nullish x = false -> read x p = Ok (x # p).
Proof. intros H. unfold read. now rewrite H. Qed.

(** ** Migration *)


Lemma populated_first (d : jsval) (p : string) (ps : list string) :
  populated_providers d = p :: ps -> nullish d = false.
Proof.
  unfold populated_providers, recognized_providers, populated. simpl.
  intros Hp. destruct d as [[]|]; simpl in *; congruence.
Qed.

(** A document the migration has produced declares version "1". *)
Lemma stateV1_version (n : jsval) (p : string) (o c : gmap string value) :
  stateV1 n p o c # "version" = Some (VStr "1").
Proof. unfold stateV1, literal. destruct n; simpl; by simplify_map_eq. Qed.

Lemma ensureStateV1_stateV1 (n : jsval) (p : string) (o c : gmap string value) :
  ensureStateV1 (stateV1 n p o c) = Ok (stateV1 n p o c).
Proof.
  unfold ensureStateV1. rewrite read_not_nullish by done.
  now rewrite stateV1_version.
Qed.

Lemma stateV1_name (n : jsval) (p : string) (o c : gmap string value) :
  stateV1 n p o c # "name" = n.
Proof. unfold stateV1, literal. destruct n; simpl; by simplify_map_eq. Qed.



Lemma stateV1_config (n : jsval) (p : string) (o c : gmap string value) :
  stateV1 n p o c # "provision" # "config" = Some (VObj c).
Proof. unfold stateV1, literal. destruct n; simpl; by simplify_map_eq. Qed.

(** Splits on the test [truthy x] when the goal still depends on it. *)
Ltac case_on x :=
  try match goal with
  | |- context [truthy x] =>
      let E := fresh "E" in destruct (truthy x) eqn:E; cbn [negb orb andb]
  end.

Ltac tests_of_provider d p :=
  case_on (d # "provider" # p);
  case_on (d # "provider" # p # "provisionArgs");
  case_on (d # "provider" # p # "provisionArgs" # "create").

(** Splits on every test of the migration of [d], in the order of the
    code. *)
Ltac split_tests d :=
  case_on (d # "host"); case_on (d # "ssh"); case_on (d # "ssh" # "user");
  case_on (d # "ssh" # "privateKeyPath");
  tests_of_provider d "aws"; case_on (d # "provider" # "aws" # "instanceId");
  tests_of_provider d "azure"; case_on (d # "provider" # "azure" # "vmName");
  case_on (d # "provider" # "azure" # "resourceGroupName");
  tests_of_provider d "gcp"; case_on (d # "provider" # "gcp" # "instanceName");
  tests_of_provider d "paperspace";
  case_on (d # "provider" # "paperspace" # "machineId");
  case_on (d # "provider" # "paperspace" # "apiKey");
  case_on (d # "provider" # "paperspace" # "provisionArgs" # "apiKey").

(** Brings the outcome of the tests to the hypotheses. *)
Ltac use_tests :=
  repeat match goal with
  | E : truthy ?x = _, H : context [truthy ?x] |- _ =>
      lazymatch type of H with
      | truthy x = _ => fail
      | _ => rewrite E in H
      end
  end.

Ltac unfold_providers :=
  unfold CLOUDYPAD_PROVIDER_AWS, CLOUDYPAD_PROVIDER_AZURE,
    CLOUDYPAD_PROVIDER_GCP, CLOUDYPAD_PROVIDER_PAPERSPACE in *.

(** The migration of a document that is not null and has no version:
    [ensureStateV1] enters its else branch. *)
Ltac enter_V0 Hn Hv :=
  unfold ensureStateV1; rewrite (read_not_nullish _ _ Hn), Hv;
  cbn [mbind result_bind truthy]; unfold_providers.

Ltac populated_in H :=
  unfold populated_providers, recognized_providers, populated in H;
  unfold_providers; cbn [List.filter] in H.










Lemma lookup_set_eq {V} (p : string) (x : option V) (o : gmap string V) :
  set p x o !! p = x.
Proof. destruct x; simpl; by simplify_map_eq. Qed.



(** A document whose version is the string "1" is returned as it is. *)
Lemma current_version_returned (d : jsval) :
  d # "version" = Some (VStr "1") -> ensureStateV1 d = Ok d.
Proof.
  intros Hv. unfold ensureStateV1.
  rewrite read_not_nullish by (destruct d as [[]|]; done).
  now rewrite Hv.
Qed.

(** A state that the migration returns is returned as it is when migrated
    again. *)
Lemma migrated_is_current (d s : jsval) :
  ensureStateV1 d = Ok s -> ensureStateV1 s = Ok s.
Proof.
  destruct (nullish d) eqn:Hn.
  { unfold ensureStateV1, read. now rewrite Hn. }
  destruct (truthy (d # "version")) eqn:Hv.
  - intros Hd. assert (s = d) as ->; [|done].
    revert Hd. unfold ensureStateV1. rewrite (read_not_nullish _ _ Hn).
    cbn [mbind result_bind]. rewrite Hv.
    destruct (loose_neq_1 (d # "version")); congruence.
  - unfold ensureStateV1 at 1. rewrite (read_not_nullish _ _ Hn).
    cbn [mbind result_bind]. rewrite Hv. unfold_providers.
    split_tests d.
    all: intros [= <-]; apply ensureStateV1_stateV1.
Qed.

(** The API key of a migrated Paperspace state is [apiKey ?? provisionArgs.apiKey]. *)
Lemma paperspace_apiKey (d s : jsval) :
  d # "version" = undefined ->
  populated_providers d = [CLOUDYPAD_PROVIDER_PAPERSPACE] ->
  ensureStateV1 d = Ok s ->
  s # "provision" # "config" # "apiKey"
  = coalesce (d # "provider" # "paperspace" # "apiKey")
      (d # "provider" # "paperspace" # "provisionArgs" # "apiKey").
Proof.
  intros Hv Hp.
  pose proof (populated_first _ _ _ Hp) as Hn.
  populated_in Hp.
  enter_V0 Hn Hv.
  split_tests d; use_tests; try discriminate Hp.
  all: intros [= <-]; rewrite stateV1_config.
  all: unfold literal; cbn [foldl get fst snd].
  all: rewrite lookup_insert_ne by done; apply lookup_set_eq.
Qed.

(** *** The claims on the migration *)




(** C3, amended.  A raw document whose version is the string "1" is
    returned as it is, without any validation of its other fields, and no
    document makes [ensureStateV1] fail with a schema validation error. *)
Theorem current_version_not_validated (d : jsval) :
  (d # "version" = Some (VStr "1") -> ensureStateV1 d = Ok d)
  /\ ~ fails_with SchemaValidationError (ensureStateV1 d).
Proof.
  split; [apply current_version_returned|].
  destruct (ensureStateV1 d) as [s|e] eqn:Hd; simpl; [tauto|].
  destruct e; simpl; try discriminate.
  all: revert Hd; unfold ensureStateV1, read; destruct (nullish d); [discriminate|].
  all: cbn [mbind result_bind]; unfold_providers.
  all: destruct (truthy (d # "version"));
    [destruct (loose_neq_1 (d # "version")); discriminate|].
  all: split_tests d; discriminate.
Qed.

(** At a document that declares its version and nothing else. *)
Lemma current_version_not_validated_witness :
  ensureStateV1 bare_v1_doc = Ok bare_v1_doc.
Proof.
  apply (proj1 (current_version_not_validated bare_v1_doc)). reflexivity.
Defined.

(** C3, as stated, fails: a document that declares version "1" and has
    neither a name nor a provision record is returned, not rejected. *)
Lemma bare_v1_doc_accepted :
  bare_v1_doc # "version" = Some (VStr "1")
  /\ bare_v1_doc # "name" = undefined
  /\ bare_v1_doc # "provision" = undefined
  /\ ensureStateV1 bare_v1_doc = Ok bare_v1_doc
  /\ ~ fails_with SchemaValidationError (ensureStateV1 bare_v1_doc).
Proof. repeat split; try reflexivity. vm_compute. tauto. Qed.




(** C10.  The test of state.ts:299 takes an empty API key for missing,
    the [??] of state.ts:314 takes it for present.  On a Paperspace
    document whose provider-level key is the empty string and whose
    [provisionArgs] hold a key, the migration succeeds, the test having
    found the second key, and the migrated state has the empty key, not
    the second one.  On a document whose only key is the empty
    provider-level one, the migration fails for want of a key. *)
Theorem paperspace_empty_apiKey_kept :
  (paperspace_empty_key_doc # "provider" # "paperspace" # "apiKey" = Some (VStr "")
   /\ paperspace_empty_key_doc # "provider" # "paperspace" # "provisionArgs" # "apiKey"
      = Some (VStr "key")
   /\ exists s, ensureStateV1 paperspace_empty_key_doc = Ok s
        /\ s # "provision" # "config" # "apiKey" = Some (VStr ""))
  /\ (paperspace_only_empty_key_doc # "provider" # "paperspace" # "apiKey"
      = Some (VStr "")
      /\ paperspace_only_empty_key_doc # "provider" # "paperspace" # "provisionArgs"
           # "apiKey" = undefined
      /\ ensureStateV1 paperspace_only_empty_key_doc = Err MissingPaperspaceApiKey).
Proof.
  split.
  - split; [reflexivity|]. split; [reflexivity|].
    eexists. split; reflexivity.
  - repeat split.
Qed.

(** *** Further properties of the migration *)

(** The migration of a document that is not null and whose version is
    falsy: [ensureStateV1] enters its else branch. *)
Ltac enter_legacy Hn Hv :=
  unfold ensureStateV1; rewrite (read_not_nullish _ _ Hn);
  cbn [mbind result_bind]; rewrite Hv; unfold_providers.


(** X8.  A falsy [version] (0, the empty string, [false], [null]) is no
    version: the document is migrated as a legacy one, to what it would
    be migrated to without the field. *)
Theorem falsy_version_is_legacy (m : gmap string value) :
  truthy (m !! "version") = false ->
  ensureStateV1 (Some (VObj m)) = ensureStateV1 (Some (VObj (delete "version" m))).
Proof.
  intros Hv. unfold ensureStateV1, sshConfig.
  rewrite !read_not_nullish by done. cbn [mbind result_bind get].
  rewrite Hv, lookup_delete_eq. cbn [truthy].
  now rewrite !lookup_delete_ne by done.
Qed.

(** X9.  On a legacy document the host is checked first and the SSH
    fields second, before any provider is looked at: without a host the
    error is the missing host, and with a host and without the SSH user
    or key it is the missing SSH configuration, whatever the providers
    of the document are. *)
Theorem host_and_ssh_checked_first (d : jsval) :
  nullish d = false ->
  truthy (d # "version") = false ->
  (truthy (d # "host") = false -> ensureStateV1 d = Err MissingHost)
  /\ (truthy (d # "host") = true ->
      truthy (d # "ssh" # "user") = false
      \/ truthy (d # "ssh" # "privateKeyPath") = false ->
      ensureStateV1 d = Err MissingSshConfig).
Proof.
  intros Hn Hv. enter_legacy Hn Hv. split.
  - now intros ->.
  - intros -> Hssh. cbn [negb].
    destruct (truthy (d # "ssh")) eqn:Es; [|done].
    destruct Hssh as [-> | ->]; cbn [negb orb]; [done|].
    now destruct (truthy (d # "ssh" # "user")).
Qed.


(** X11.  The [config] of a migrated state, of provider [p], the first
    populated one: its [ssh] is a new object with the user and the key
    path of the document's [ssh], whatever [create] holds under that
    name; every other property, and for Paperspace every other but
    [apiKey], is the one a spread of [provider.p.provisionArgs.create]
    copies. *)
Theorem migrated_config (d s : jsval) (p : string) (ps : list string) :
  truthy (d # "version") = false ->
  populated_providers d = p :: ps ->
  ensureStateV1 d = Ok s ->
  s # "provision" # "config" # "ssh"
  = Some (VObj (literal ∅ [("user", d # "ssh" # "user");
                           ("privateKeyPath", d # "ssh" # "privateKeyPath")]))
  /\ (forall k, k <> "ssh" ->
        (p = CLOUDYPAD_PROVIDER_PAPERSPACE -> k <> "apiKey") ->
        s # "provision" # "config" # k
        = spread (d # "provider" # p # "provisionArgs" # "create") !! k).
Proof.
  intros Hv Hp.
  pose proof (populated_first _ _ _ Hp) as Hn.
  populated_in Hp.
  enter_legacy Hn Hv.
  split_tests d; use_tests; try discriminate.
  all: apply (f_equal head) in Hp; cbn [head] in Hp; injection Hp as Hp; subst p.
  all: intros [= <-]; rewrite stateV1_config.
  all: unfold literal; cbn [foldl get fst snd].
  all: (split; [apply lookup_insert_eq|]).
  all: intros k Hk Hkey.
  all: rewrite lookup_insert_ne by done.
  all: try reflexivity.
  all: specialize (Hkey eq_refl).
  all: unfold coalesce, set.
  all: repeat match goal with
       | |- context [match ?x with _ => _ end] => destruct x
       end.
  all: now rewrite ?lookup_insert_ne, ?lookup_delete_ne by done.
Qed.

(** X12.  A migrated state has no property but [name], [version] and
    [provision], and its [provision] none but [provider], [output] and
    [config]: nothing else of the legacy document, neither its [status]
    nor its top-level [host], [ssh] and [provider], is carried over.  Its
    version is "1" and its name the document's. *)
Theorem migrated_state_shape (d s : jsval) :
  truthy (d # "version") = false ->
  ensureStateV1 d = Ok s ->
  (forall k, k <> "name" -> k <> "version" -> k <> "provision" ->
     s # k = undefined)
  /\ (forall k, k <> "provider" -> k <> "output" -> k <> "config" ->
        s # "provision" # k = undefined)
  /\ s # "version" = Some (VStr "1")
  /\ s # "name" = d # "name".
Proof.
  intros Hv.
  destruct (nullish d) eqn:Hn.
  { unfold ensureStateV1, read. now rewrite Hn. }
  enter_legacy Hn Hv.
  split_tests d.
  all: intros [= <-].
  all: rewrite stateV1_version, stateV1_name.
  all: (split; [|split; [|done]]).
  all: intros k H1 H2 H3; unfold stateV1, literal; cbn [foldl get fst snd set].
  all: destruct (d # "name"); cbn [set];
         rewrite ?lookup_insert_ne, ?lookup_delete_ne, ?lookup_insert_eq by done;
         cbn [get];
         rewrite ?lookup_insert_ne, ?lookup_delete_ne, ?lookup_empty by done;
         done.
Qed.

(** ** The migration on a heap *)

(** A tree that a heap stands for, it stands for after allocations. *)
Lemma repr_mono (h h' : Heap.heap) (x : Heap.value) (v : value) :
  h ⊆ h' -> repr h x v -> repr h' x v.
Proof.
  intros Hsub Hr. induction Hr using repr_induction; try constructor; auto.
  econstructor; [by eapply lookup_weaken|done].
Qed.

Lemma repr_opt_mono (h h' : Heap.heap) (x : Heap.jsval) (v : jsval) :
  h ⊆ h' -> repr_opt h x v -> repr_opt h' x v.
Proof. intros Hsub [x' v' Hr|]; constructor. by eapply repr_mono. Qed.

Lemma repr_props_mono (h h' : Heap.heap) o m :
  h ⊆ h' -> repr_props h o m -> repr_props h' o m.
Proof. intros Hsub Ho p. by eapply repr_opt_mono. Qed.

Lemma repr_truthy h x v : repr_opt h x v -> Heap.truthy x = truthy v.
Proof. intros [? ? []|]; reflexivity. Qed.

Lemma repr_nullish h x v : repr_opt h x v -> Heap.nullish x = nullish v.
Proof. intros [? ? []|]; reflexivity. Qed.

Lemma repr_get h x v p : repr_opt h x v -> repr_opt h (Heap.get h x p) (v # p).
Proof.
  intros [? ? [| | | | |l o m Hl Ho]|]; simpl; try constructor.
  rewrite Hl. apply Ho.
Qed.

Lemma repr_path h x v ps :
  repr_opt h x v -> repr_opt h (Heap.path h x ps) (foldl get v ps).
Proof.
  revert x v. induction ps as [|p ps IH]; intros x v Hr; [done|].
  apply IH. by apply repr_get.
Qed.

Lemma repr_to_string h x v : repr h x v -> Heap.to_string x = to_string v.
Proof.
  intros Hr. induction Hr as [| | | |l l' Hl IH|] using repr_induction;
    try reflexivity.
  simpl. f_equal.
  induction Hl as [|x v l l' Hx Hl IHl]; [done|].
  apply Forall2_cons in IH as [Hs IH].
  simpl. f_equal; [|auto].
  destruct Hx; auto.
Qed.

Lemma repr_loose_neq_1 h x v :
  repr_opt h x v -> Heap.loose_neq_1 x = loose_neq_1 v.
Proof.
  intros [x' v' Hr|]; [|done].
  destruct Hr; try reflexivity.
  unfold Heap.loose_neq_1, loose_neq_1.
  now rewrite (repr_to_string h (Heap.VArr l) (VArr l')) by by constructor.
Qed.

Lemma repr_coalesce h x v y w :
  repr_opt h x v -> repr_opt h y w ->
  repr_opt h (Heap.coalesce x y) (coalesce v w).
Proof.
  intros Hx Hy. unfold Heap.coalesce, coalesce.
  rewrite (repr_nullish h x v Hx). by destruct (nullish v).
Qed.

Lemma repr_props_empty h : repr_props h ∅ ∅.
Proof. intros p. rewrite !lookup_empty. constructor. Qed.

Lemma repr_props_set h p x v o m :
  repr_opt h x v -> repr_props h o m -> repr_props h (set p x o) (set p v m).
Proof.
  intros Hx Ho q. destruct Hx as [x v Hx|]; simpl.
  - destruct (decide (p = q)) as [->|].
    + rewrite !lookup_insert_eq. by constructor.
    + rewrite !lookup_insert_ne by done. apply Ho.
  - destruct (decide (p = q)) as [->|].
    + rewrite !lookup_delete_eq. constructor.
    + rewrite !lookup_delete_ne by done. apply Ho.
Qed.

Lemma repr_props_literal h o m ps qs :
  repr_props h o m -> repr_list h ps qs ->
  repr_props h (literal o ps) (literal m qs).
Proof.
  intros Ho Hl. revert o m Ho. unfold literal.
  induction Hl as [|[p x] [q v] ps qs [Hp Hx] Hl IH]; intros o m Ho; [done|].
  simpl in *. subst q. apply IH. by apply repr_props_set.
Qed.

Lemma repr_props_indexed {A B} h (f : A -> Heap.value) (g : B -> value) l l' :
  Forall2 (fun a b => repr h (f a) (g b)) l l' ->
  repr_props h (indexed f l) (indexed g l').
Proof.
  unfold indexed. generalize (pretty : nat -> string) as key.
  intros key Hl. revert key.
  induction Hl as [|a b l l' Hab Hl IH]; intros key.
  - apply repr_props_empty.
  - rewrite !imap_cons. simpl. intros p.
    destruct (decide (key 0%nat = p)) as [->|].
    + rewrite !lookup_insert_eq. by constructor.
    + rewrite !lookup_insert_ne by done. apply (IH (key ∘ S)).
Qed.

Lemma repr_spread h x v :
  repr_opt h x v -> repr_props h (Heap.spread h x) (spread v).
Proof.
  intros [? ? [| | |s|l l' Hl|l o m Hl Ho]|]; simpl;
    try apply repr_props_empty.
  - apply repr_props_indexed. induction (chars s); constructor; auto.
    constructor.
  - apply repr_props_indexed. by eapply Forall2_impl.
  - now rewrite Hl.
Qed.

Lemma alloc_extends (o : gmap string Heap.value) (h : Heap.heap) :
  exists l,
    Heap.alloc o h = (Some (Heap.VRef l), <[l := o]> h)
    /\ h !! l = None
    /\ h ⊆ <[l := o]> h.
Proof.
  exists (fresh (dom h)).
  assert (h !! fresh (dom h) = None) as Hl.
  { apply not_elem_of_dom, is_fresh. }
  repeat split; [done|]. by apply insert_subseteq.
Qed.

Lemma repr_alloc h o m r h' :
  repr_props h o m ->
  Heap.alloc o h = (r, h') ->
  h ⊆ h' /\ repr_opt h' r (Some (VObj m)).
Proof.
  intros Ho Ha. destruct (alloc_extends o h) as (l & Hl & Hnew & Hsub).
  rewrite Hl in Ha. injection Ha as <- <-. split; [done|].
  constructor. econstructor; [apply lookup_insert_eq|].
  by eapply repr_props_mono.
Qed.

Lemma run_alloc_bind {A B} (m : Heap.Alloc A) (k : A -> Heap.Alloc B) h :
  (m ≫= k) h = (let (a, h') := m h in k a h').
Proof. reflexivity. Qed.

Lemma run_current {B} (k : Heap.heap -> Heap.Alloc B) h :
  (Heap.current ≫= k) h = k h h.
Proof. reflexivity. Qed.

Lemma extending_ret {A} (a : A) : extending (mret a).
Proof. intros h. done. Qed.

Lemma extending_current : extending Heap.current.
Proof. intros h. done. Qed.

Lemma extending_bind {A B} (m : Heap.Alloc A) (k : A -> Heap.Alloc B) :
  extending m -> (forall a, extending (k a)) -> extending (m ≫= k).
Proof.
  intros Hm Hk h. rewrite run_alloc_bind.
  specialize (Hm h). destruct (m h) as [a h1]. by etrans; [|apply Hk].
Qed.

Lemma allocating_alloc o : allocating (Heap.alloc o).
Proof.
  intros h. destruct (alloc_extends o h) as (l & -> & Hl & Hsub). eauto.
Qed.

Lemma allocating_extending m : allocating m -> extending m.
Proof. intros Hm h. apply Hm. Qed.

Lemma allocating_bind {A} (m : Heap.Alloc A) (k : A -> Heap.Alloc Heap.jsval) :
  extending m -> (forall a, allocating (k a)) -> allocating (m ≫= k).
Proof.
  intros Hm Hk h. rewrite run_alloc_bind.
  specialize (Hm h). destruct (m h) as [a h1]. simpl in Hm.
  destruct (Hk a h1) as (Hs & l & Hl & Hnew). split; [by etrans|].
  exists l. split; [done|].
  destruct (h !! l) eqn:E; [|done].
  rewrite (lookup_weaken _ _ _ _ E Hm) in Hnew. discriminate.
Qed.

(** The object literal of a provider branch allocates its objects next to
    those of the heap, and returns a new one. *)
Lemma stateV1_allocating stateV0 name pn provider ids extra :
  allocating (Heap.stateV1 stateV0 name pn provider ids extra).
Proof.
  unfold Heap.stateV1.
  repeat (apply allocating_bind;
          [first [apply extending_current
                 | apply allocating_extending, allocating_alloc]
          | intros ?]).
  apply allocating_alloc.
Qed.

(** The migration leaves every object of the heap as it is. *)
Lemma ensureStateV1_extending (x : Heap.jsval) :
  extending (Heap.ensureStateV1 x).
Proof.
  unfold Heap.ensureStateV1, Heap.throw, Heap.returns.
  apply extending_bind; [apply extending_current|]. intros h.
  repeat first
    [ apply extending_ret
    | apply extending_bind; [apply allocating_extending, stateV1_allocating|intros ?]
    | match goal with
      | |- extending (match ?c with _ => _ end) => destruct c
      end ].
Qed.

Lemma new_in_returns h m : allocating m -> new_in h (Heap.returns m h).
Proof.
  intros Hm. unfold Heap.returns, new_in. rewrite run_alloc_bind.
  destruct (Hm h) as (_ & l & Hl & Hnew). destruct (m h) as [s h1].
  simpl in *. eauto.
Qed.

(** A migration that returns, on a document with no version, returns an
    object that was not in the heap. *)
Lemma ensureStateV1_new (x : Heap.jsval) (h : Heap.heap) :
  Heap.truthy (Heap.get h x "version") = false ->
  new_in h (Heap.ensureStateV1 x h).
Proof.
  intros Hv.
  unfold Heap.ensureStateV1. rewrite run_current. unfold Heap.read.
  destruct (Heap.nullish x); [exact I|].
  rewrite Hv. cbv zeta.
  repeat match goal with
  | |- new_in _ ((if ?c then _ else _) _) => destruct c
  end.
  all: first [ exact I | apply new_in_returns, stateV1_allocating ].
Qed.

Lemma ensureStateV1_current (x : Heap.jsval) (h : Heap.heap) :
  Heap.get h x "version" = Some (Heap.VStr "1") ->
  Heap.ensureStateV1 x h = (Ok x, h).
Proof.
  intros Hv. unfold Heap.ensureStateV1. rewrite run_current. unfold Heap.read.
  destruct x as [[]|]; try discriminate Hv. simpl in *. now rewrite Hv.
Qed.

(** *** The two embeddings agree *)

Lemma truthy_path h x d ps :
  repr_opt h x d -> Heap.truthy (Heap.path h x ps) = truthy (foldl get d ps).
Proof. intros Hx. eapply repr_truthy, repr_path, Hx. Qed.

Lemma repr_list_ids h x d provider (ids : list (string * string)) :
  repr_opt h x d ->
  repr_list h
    (map (fun '(p, q) => (p, Heap.path h x (provider ++ [q]))) ids)
    (map (fun '(p, q) => (p, foldl get d (provider ++ [q]))) ids).
Proof.
  intros Hx. induction ids as [|[p q] ids IH]; constructor; [|done].
  split; [done|]. by apply repr_path.
Qed.

Lemma stateV1_repr h stateV0 d nameH nameP pn provider ids extraH extraP s h' :
  repr_opt h stateV0 d ->
  repr_opt h nameH nameP ->
  (forall h1, h ⊆ h1 -> repr_list h1 (extraH h1) extraP) ->
  Heap.stateV1 stateV0 nameH pn provider ids extraH h = (s, h') ->
  repr_opt h' s
    (stateV1 nameP pn
       (literal ∅
          (("host", d # "host")
           :: map (fun '(p, q) => (p, foldl get d (provider ++ [q]))) ids))
       (set "ssh" (sshConfig d)
          (literal (spread (foldl get d (provider ++ ["provisionArgs"; "create"])))
             extraP))).
Proof.
  intros Hd Hname Hextra. unfold Heap.stateV1, stateV1.
  set (outP := literal ∅ (("host", d # "host")
      :: map (fun '(p, q) => (p, foldl get d (provider ++ [q]))) ids)).
  set (configP := set "ssh" (sshConfig d)
      (literal (spread (foldl get d (provider ++ ["provisionArgs"; "create"])))
         extraP)).
  rewrite run_current, run_alloc_bind.
  destruct (Heap.alloc _ h) as [out h1] eqn:E1.
  apply repr_alloc with (m := outP) in E1 as [S1 R1].
  2:{ apply repr_props_literal; [apply repr_props_empty|].
      constructor; [split; [done|by apply repr_get]|by apply repr_list_ids]. }
  pose proof (repr_opt_mono _ _ _ _ S1 Hd) as Hd1.
  rewrite run_current, run_alloc_bind.
  destruct (Heap.alloc _ h1) as [ssh h2] eqn:E2.
  apply repr_alloc with (m :=
    literal ∅ [("user", foldl get d ["ssh"; "user"]);
               ("privateKeyPath", foldl get d ["ssh"; "privateKeyPath"])])
    in E2 as [S2 R2].
  2:{ apply repr_props_literal; [apply repr_props_empty|].
      repeat constructor; by apply repr_path. }
  rewrite run_alloc_bind.
  destruct (Heap.alloc _ h2) as [config' h3] eqn:E3.
  apply repr_alloc with (m := configP) in E3 as [S3 R3].
  2:{ apply repr_props_set; [exact R2|].
      apply repr_props_mono with h1; [done|].
      apply repr_props_literal; [|by apply Hextra].
      by apply repr_spread, repr_path. }
  rewrite run_alloc_bind.
  destruct (Heap.alloc _ h3) as [prov h4] eqn:E4.
  apply repr_alloc with (m :=
    literal ∅ [("provider", Some (VStr pn)); ("output", Some (VObj outP));
               ("config", Some (VObj configP))])
    in E4 as [S4 R4].
  2:{ apply repr_props_literal; [apply repr_props_empty|].
      constructor; [split; [done|repeat constructor]|].
      constructor; [split; [done|]|].
      { eapply repr_opt_mono; [|exact R1]. etrans; [exact S2|exact S3]. }
      constructor; [split; [done|exact R3]|constructor]. }
  intros E5.
  apply repr_alloc with (m :=
    literal ∅ [("name", nameP); ("version", Some (VStr "1"));
               ("provision",
                Some (VObj (literal ∅
                  [("provider", Some (VStr pn)); ("output", Some (VObj outP));
                   ("config", Some (VObj configP))])))])
    in E5 as [S5 R5]; [exact R5|].
  apply repr_props_literal; [apply repr_props_empty|].
  constructor; [split; [done|]|].
  { eapply repr_opt_mono; [|exact Hname].
    do 3 (etrans; [eassumption|]). exact S4. }
  constructor; [split; [done|repeat constructor]|].
  constructor; [split; [done|exact R4]|constructor].
Qed.

(** X29.  The outcome of the migration depends on the content of the
    document only, not on how its objects are shared: on any heap that
    stands for a document, the migration does what the migration of that
    document does, failing with the same error or returning a reference
    that stands for the same state. *)
Theorem heap_migration_refines (h : Heap.heap) (x : Heap.jsval) (d : jsval) :
  repr_opt h x d ->
  match Heap.ensureStateV1 x h, ensureStateV1 d with
  | (Ok s, h'), Ok s' => repr_opt h' s s'
  | (Err e, _), Err e' => e = e'
  | _, _ => False
  end.
Proof.
  intros Hx.
  unfold Heap.ensureStateV1, ensureStateV1. rewrite run_current.
  unfold Heap.read, read. rewrite (repr_nullish h x d Hx).
  destruct (nullish d); [done|]. cbn [mbind result_bind].
  rewrite (repr_truthy h _ _ (repr_get h x d "version" Hx)).
  rewrite (repr_loose_neq_1 h _ _ (repr_get h x d "version" Hx)).
  destruct (truthy (d # "version")).
  { destruct (loose_neq_1 (d # "version")); done. }
  cbv zeta. rewrite !(truthy_path h x d _ Hx). cbn [foldl].
  unfold_providers.
  split_tests d.
  all: try reflexivity.
  all: unfold Heap.returns; rewrite run_alloc_bind.
  all: destruct (Heap.stateV1 _ _ _ _ _ _ h) as [s h'] eqn:Es.
  all: cbn [mret Heap.Alloc_ret].
  all: first
    [ apply (stateV1_repr h x d _ (d # "name") _ _ _ _ []) in Es;
      [exact Es|exact Hx|by apply repr_get|]
    | apply (stateV1_repr h x d _ (d # "name") _ _ _ _
        [("apiKey",
          coalesce (d # "provider" # "paperspace" # "apiKey")
            (d # "provider" # "paperspace" # "provisionArgs" # "apiKey"))])
        in Es;
      [exact Es|exact Hx|by apply repr_get|] ].
  all: intros h1 Hsub; repeat constructor.
  all: pose proof (repr_opt_mono _ _ _ _ Hsub Hx) as Hx1.
  all: cbn [fst snd]; apply repr_coalesce.
  all: by apply (repr_path h1 x d).
Qed.

(** Proves that a reference into the heap of [objects] stands for a
    document written as nested object literals. *)
Ltac stands_for objects :=
  repeat match goal with
  | |- repr_opt _ (Some _) (Some _) => constructor
  | |- repr _ (Heap.VStr _) _ => constructor
  | |- repr _ (Heap.VNum _) _ => constructor
  | |- repr _ (Heap.VRef ?l) (VObj (literal ∅ _)) =>
      let props := eval cbv in (nth l objects []) in
      apply (repr_ref _ l (literal ∅ props));
      [reflexivity | apply repr_props_literal; [apply repr_props_empty|]]
  | |- repr_list _ _ _ => constructor
  | |- Forall2 _ _ _ => constructor
  | |- _ /\ _ => split; [reflexivity|cbn [snd]]
  end.

(** The heap [aws_heap] stands for the document [aws_doc]. *)
Lemma aws_heap_stands_for_aws_doc :
  repr_opt aws_heap (Some (Heap.VRef 0)) aws_doc.
Proof.
  unfold aws_doc, legacy_doc, create_args, ssh_u_k, obj, str.
  stands_for aws_objects.
Qed.

(** *** The claim on the migration and its source document *)

(** C9.  The migration returns a document of version "1" as it is, and
    migrating what a migration has returned returns it again.  On a heap,
    where the document is an object with the objects it refers to: a
    document of version "1" is returned by reference and the heap is as it
    was; for any document, every object of the heap has after the
    migration the properties it had before; and the state returned for a
    document with no version is an object that was not in the heap. *)
Theorem migration_idempotent_and_non_mutating
    (d : jsval) (h : Heap.heap) (x : Heap.jsval) :
  (d # "version" = Some (VStr "1") -> ensureStateV1 d = Ok d)
  /\ (s ← ensureStateV1 d; ensureStateV1 s) = ensureStateV1 d
  /\ (Heap.get h x "version" = Some (Heap.VStr "1") ->
      Heap.ensureStateV1 x h = (Ok x, h))
  /\ (forall l o, h !! l = Some o -> (Heap.ensureStateV1 x h).2 !! l = Some o)
  /\ (Heap.get h x "version" = None -> new_in h (Heap.ensureStateV1 x h)).
Proof.
  split; [apply current_version_returned|].
  split.
  { destruct (ensureStateV1 d) as [s|e] eqn:Hd; [|done].
    cbn [mbind result_bind]. by eapply migrated_is_current. }
  split; [apply ensureStateV1_current|].
  split.
  - intros l o Hl. eapply lookup_weaken; [exact Hl|].
    apply ensureStateV1_extending.
  - intros Hv. apply ensureStateV1_new. now rewrite Hv.
Qed.

(** At the documents [bare_v1_doc] and [aws_doc] and the heaps that hold
    them: the object of the SSH fields is as it was after the migration. *)
Lemma migration_idempotent_and_non_mutating_witness :
  ensureStateV1 bare_v1_doc = Ok bare_v1_doc
  /\ Heap.ensureStateV1 (Some (Heap.VRef 0)) v1_heap = (Ok (Some (Heap.VRef 0)), v1_heap)
  /\ (Heap.ensureStateV1 (Some (Heap.VRef 0)) aws_heap).2 !! 1%nat
     = Some (literal ∅ [("user", Some (Heap.VStr "u"));
                        ("privateKeyPath", Some (Heap.VStr "/k"))])
  /\ new_in aws_heap (Heap.ensureStateV1 (Some (Heap.VRef 0)) aws_heap).
Proof.
  pose proof (migration_idempotent_and_non_mutating bare_v1_doc v1_heap
                (Some (Heap.VRef 0))) as (H1 & _ & H3 & _ & _).
  pose proof (migration_idempotent_and_non_mutating aws_doc aws_heap
                (Some (Heap.VRef 0))) as (_ & _ & _ & H4 & H5).
  split; [apply H1; reflexivity|].
  split; [apply H3; reflexivity|].
  split; [apply H4; reflexivity|apply H5; reflexivity].
Defined.

(** *** What the migrated state shares with the document *)







(** ** The state store *)

Section StoreProperties.
Context `{Yaml content}.

Lemma persistState_written sm st (disk : Disk content) :
  StateManager.persistState sm st disk = Ok (written sm st disk).
Proof.
  unfold StateManager.persistState, StateManager.ensureInstanceDirExists,
    StateManager.existsSync, StateManager.mkdirSync,
    StateManager.writeFileSync, written.
  destruct (disk !! StateManager.getInstanceDir sm st.(name)) as [files|] eqn:Hd;
    cbn [default negb].
  - rewrite bool_decide_eq_true_2 by eauto. cbn [negb]. now rewrite Hd.
  - rewrite bool_decide_eq_false_2 by (intros [? ?]; congruence).
    cbn [negb]. rewrite lookup_insert_eq.
    now rewrite insert_insert_eq.
Qed.

Lemma persistAll_snoc sm sts st (disk : Disk content) :
  persistAll sm (sts ++ [st]) disk
  = (disk' ← persistAll sm sts disk; StateManager.persistState sm st disk').
Proof. unfold persistAll. now rewrite foldl_app. Qed.

Lemma persistAll_ok sm sts (disk : Disk content) :
  exists disk', persistAll sm sts disk = Ok disk'.
Proof.
  induction sts as [|st sts IH] using rev_ind; [by eexists|].
  destruct IH as [disk' IH]. rewrite persistAll_snoc, IH.
  cbn [mbind result_bind]. rewrite persistState_written. by eexists.
Qed.

Lemma load_written sm st (disk : Disk content) :
  yaml_faithful ->
  StateManager.loadInstanceState sm st.(name) (written sm st disk)
  = Ok (Some (toDoc st)).
Proof.
  intros Hyaml.
  unfold StateManager.loadInstanceState, StateManager.instanceExists,
    StateManager.existsSync, StateManager.readFileSync, written.
  rewrite lookup_insert_eq.
  rewrite bool_decide_eq_true_2 by eauto. cbn [negb mbind option_bind].
  rewrite lookup_insert_eq. cbn [mbind result_bind].
  rewrite Hyaml. cbn [mbind result_bind].
  unfold ensureStateV1. rewrite read_not_nullish by done.
  reflexivity.
Qed.

(** C7.  With a YAML library that loads what it dumps: after any number
    of states have been persisted under a name, persisting a state [st]
    of that name succeeds, and loading that name then returns [st], as
    the document it is; and the migration of the dumped and loaded
    document of a typed state is that document.  (The earlier states are
    taken of the same name, to stay with the overwrites of one document;
    the proof does not use it.) *)
Theorem persist_then_load (sm : StateManager.t) (sts : list InstanceStateV1)
    (st : InstanceStateV1) (disk : Disk content) :
  yaml_faithful ->
  Forall (fun st' => st'.(name) = st.(name)) sts ->
  (exists disk',
     persistAll sm (sts ++ [st]) disk = Ok disk'
     /\ StateManager.loadInstanceState sm st.(name) disk' = Ok (Some (toDoc st)))
  /\ (rawState ← yaml_load (yaml_dump (toDoc st)); ensureStateV1 rawState)
     = Ok (Some (toDoc st)).
Proof.
  intros Hyaml _. split.
  - destruct (persistAll_ok sm sts disk) as [disk1 H1].
    exists (written sm st disk1). split.
    + rewrite persistAll_snoc, H1. cbn [mbind result_bind].
      apply persistState_written.
    + now apply load_written.
  - rewrite Hyaml. cbn [mbind result_bind].
    unfold ensureStateV1. now rewrite read_not_nullish by done.
Qed.

(** *** Further properties of the store *)

Lemma existsSync_false (dir : string) (disk : Disk content) :
  disk !! dir = None -> StateManager.existsSync dir disk = false.
Proof.
  intros Hd. unfold StateManager.existsSync. rewrite Hd.
  apply bool_decide_eq_false_2. intros [? ?]. discriminate.
Qed.

Lemma existsSync_true (dir : string) (disk : Disk content) files :
  disk !! dir = Some files -> StateManager.existsSync dir disk = true.
Proof.
  intros Hd. unfold StateManager.existsSync. rewrite Hd.
  apply bool_decide_eq_true_2. eauto.
Qed.


(** X2.  Loading an instance whose directory does not exist fails with
    "Instance named '...' does not exist.", naming the instance asked for.
    A directory without [config.yml] counts as an existing instance, and
    loading it fails on the read of the file. *)
Theorem load_without_directory_or_file (sm : StateManager.t)
    (instanceName : string) (disk : Disk content) :
  let dir := StateManager.getInstanceDir sm instanceName in
  (disk !! dir = None ->
     StateManager.instanceExists sm instanceName disk = false
     /\ StateManager.loadInstanceState sm instanceName disk
        = Err (InstanceDoesNotExist instanceName))
  /\ (forall files, disk !! dir = Some files -> files !! "config.yml" = None ->
        StateManager.instanceExists sm instanceName disk = true
        /\ StateManager.loadInstanceState sm instanceName disk
           = Err (NoSuchFile (path_join dir "config.yml"))).
Proof.
  intros dir. unfold StateManager.loadInstanceState, StateManager.instanceExists.
  fold dir. split.
  - intros Hd. now rewrite (existsSync_false _ _ Hd).
  - intros files Hd Hf. rewrite (existsSync_true _ _ _ Hd). split; [done|].
    unfold StateManager.readFileSync. rewrite Hd. cbn. now rewrite Hf.
Qed.

(** X3.  When the file is there, loading is parsing it and migrating
    what was parsed: an error of the YAML parser is the error of the load,
    and an empty document (the parser returns [undefined] or [null]) makes
    it fail with a [TypeError]. *)
Theorem load_parses_then_migrates (sm : StateManager.t)
    (instanceName : string) (disk : Disk content) files text :
  disk !! StateManager.getInstanceDir sm instanceName = Some files ->
  files !! "config.yml" = Some text ->
  StateManager.loadInstanceState sm instanceName disk
  = (rawState ← yaml_load text; ensureStateV1 rawState)
  /\ (forall e, yaml_load text = Err e ->
        StateManager.loadInstanceState sm instanceName disk = Err e)
  /\ (forall rawState, yaml_load text = Ok rawState -> nullish rawState = true ->
        StateManager.loadInstanceState sm instanceName disk = Err TypeError).
Proof.
  intros Hd Hf.
  assert (Hl : StateManager.loadInstanceState sm instanceName disk
               = (rawState ← yaml_load text; ensureStateV1 rawState)).
  { unfold StateManager.loadInstanceState, StateManager.instanceExists.
    rewrite (existsSync_true _ _ _ Hd). cbn [negb].
    unfold StateManager.readFileSync. rewrite Hd. cbn. now rewrite Hf. }
  rewrite Hl. split; [done|]. split.
  - now intros e ->.
  - intros raw -> Hn. cbn. unfold ensureStateV1, read. now rewrite Hn.
Qed.



Lemma existsFileSync_readable (dir file : string) (disk : Disk content) :
  StateManager.existsFileSync dir file disk = true
  <-> exists text, StateManager.readFileSync dir file disk = Ok text.
Proof.
  unfold StateManager.existsFileSync, StateManager.readFileSync.
  rewrite bool_decide_eq_true.
  destruct (disk !! dir ≫= (.!! file)) as [text|]; split.
  - eauto.
  - eauto.
  - intros [? ?]; discriminate.
  - intros [? ?]; discriminate.
Qed.

(** X6.  [listInstances] returns the empty list when the instances
    directory cannot be read; otherwise it returns exactly the names of
    the listing under which a [config.yml] can be read, so that a
    directory without that file is left out; and every instance it
    returns exists. *)
Theorem listInstances_lists_the_loadable (sm : StateManager.t)
    (readdirSync : string -> result (list string)) (disk : Disk content) :
  let instancesDirPath := path_join sm.(StateManager.dataRootDir) "instances" in
  (forall e, readdirSync instancesDirPath = Err e ->
     StateManager.listInstances sm readdirSync disk = [])
  /\ (forall instanceDirs, readdirSync instancesDirPath = Ok instanceDirs ->
        forall instanceName,
          In instanceName (StateManager.listInstances sm readdirSync disk)
          <-> In instanceName instanceDirs
              /\ exists text,
                   StateManager.readFileSync
                     (StateManager.getInstanceDir sm instanceName)
                     "config.yml" disk = Ok text)
  /\ (forall instanceName,
        In instanceName (StateManager.listInstances sm readdirSync disk) ->
        StateManager.instanceExists sm instanceName disk = true).
Proof.
  intros dirPath. unfold StateManager.listInstances. fold dirPath.
  split; [|split].
  - now intros e ->.
  - intros l -> n. rewrite filter_In.
    now rewrite existsFileSync_readable.
  - intros n. destruct (readdirSync dirPath) as [l|]; [|intros []].
    rewrite filter_In. intros [_ Hn].
    apply existsFileSync_readable in Hn as [text Hn].
    unfold StateManager.readFileSync in Hn.
    change (path_join dirPath n) with (StateManager.getInstanceDir sm n) in Hn.
    unfold StateManager.instanceExists.
    destruct (disk !! StateManager.getInstanceDir sm n) as [files|] eqn:Hd;
      [now apply (existsSync_true _ _ files)|discriminate].
Qed.



End StoreProperties.

(** ** The lifecycle manager *)

Section ManagerProperties.
Context `{Yaml content}.
Variable factory : SubManagerFactory.t.
Variable confirm : result bool.

Local Abbreviation Sys := (Sys content).

(** Running the steps of a method from a world. *)
Lemma run_bind {A B} (m : M content A) (k : A -> M content B) (s : Sys) :
  (m ≫= k) s
  = match m s with
    | (Ok a, s') => k a s'
    | (Err e, s') => (Err e, s')
    end.
Proof. reflexivity. Qed.

Lemma run_call {A} (ev : Event) (r : result A) (s : Sys) :
  InstanceManager.call ev r s = (r, with_ s s.(state) s.(disk) [ev]).
Proof. reflexivity. Qed.

Lemma run_assignOutput (o : jsval) (s : Sys) :
  InstanceManager.assignOutput o s
  = (Ok tt, with_ s (set_output o s.(state)) s.(disk) []).
Proof.
  unfold InstanceManager.assignOutput, with_. now rewrite app_nil_r.
Qed.

Lemma run_persistState (sm : StateManager.t) (s : Sys) :
  StateManager.default s.(env) = Ok sm ->
  InstanceManager.persistState s
  = (Ok tt, with_ s s.(state) (written sm s.(state) s.(disk))
              [Persisted (toDoc s.(state))]).
Proof.
  intros Hsm. unfold InstanceManager.persistState.
  now rewrite Hsm, persistState_written.
Qed.


Lemma run_build {A} (build : InstanceStateV1 -> result A) (s : Sys) :
  (state ← InstanceManager.getState; InstanceManager.lift (build state)) s
  = (build s.(state), s).
Proof. reflexivity. Qed.

(** Brings a world reached through several steps to the form
    [with_ s st d evs]. *)
Ltac normal_world :=
  unfold with_; cbn [state env disk trace];
  rewrite <- ?app_assoc; cbn [app].

Lemma run_provision (s : Sys) opts pv o sm :
  factory.(SubManagerFactory.buildProvisioner) s.(state) = Ok pv ->
  pv.(InstanceProvisioner.provision) opts = Ok o ->
  StateManager.default s.(env) = Ok sm ->
  let st' := set_output (Some o) s.(state) in
  InstanceManager.provision factory opts s
  = (Ok tt, with_ s st' (written sm st' s.(disk))
              [CallProvision opts; Persisted (toDoc st')]).
Proof.
  intros Hpv Ho Hsm st'.
  unfold InstanceManager.provision, InstanceManager.buildProvisioner.
  rewrite run_bind, run_build, Hpv.
  rewrite run_bind, run_call, Ho.
  rewrite run_bind, run_assignOutput.
  erewrite run_persistState by (simpl; eassumption).
  now normal_world.
Qed.

Lemma written_again sm st (d : Disk content) :
  written sm st (written sm st d) = written sm st d.
Proof.
  unfold written. cbv zeta. rewrite lookup_insert_eq.
  cbn [default from_option id]. now rewrite !insert_insert_eq.
Qed.

Lemma run_provision_fails (s : Sys) opts pv e :
  factory.(SubManagerFactory.buildProvisioner) s.(state) = Ok pv ->
  pv.(InstanceProvisioner.provision) opts = Err e ->
  InstanceManager.provision factory opts s
  = (Err e, with_ s s.(state) s.(disk) [CallProvision opts]).
Proof.
  intros Hpv He.
  unfold InstanceManager.provision, InstanceManager.buildProvisioner.
  rewrite run_bind, run_build, Hpv.
  now rewrite run_bind, run_call, He.
Qed.

Lemma run_provision_not_built (s : Sys) opts e :
  factory.(SubManagerFactory.buildProvisioner) s.(state) = Err e ->
  InstanceManager.provision factory opts s = (Err e, s).
Proof.
  intros Hpv.
  unfold InstanceManager.provision, InstanceManager.buildProvisioner.
  now rewrite run_bind, run_build, Hpv.
Qed.

Lemma run_configure (s : Sys) cf sm :
  factory.(SubManagerFactory.buildConfigurator) s.(state) = Ok cf ->
  cf.(InstanceConfigurator.configure) = Ok tt ->
  StateManager.default s.(env) = Ok sm ->
  InstanceManager.configure factory s
  = (Ok tt, with_ s s.(state) (written sm s.(state) s.(disk))
              [CallConfigure; Persisted (toDoc s.(state))]).
Proof.
  intros Hcf Hok Hsm.
  unfold InstanceManager.configure, InstanceManager.buildConfigurator.
  rewrite run_bind, run_build, Hcf.
  rewrite run_bind, run_call, Hok.
  erewrite run_persistState by (simpl; eassumption).
  now normal_world.
Qed.

Lemma run_pair (s : Sys) rn sm :
  factory.(SubManagerFactory.buildRunner) s.(state) = Ok rn ->
  StateManager.default s.(env) = Ok sm ->
  InstanceManager.pair factory s
  = (rn.(InstanceRunner.pair),
     with_ s s.(state)
       match rn.(InstanceRunner.pair) with
       | Ok _ => written sm s.(state) s.(disk)
       | Err _ => s.(disk)
       end
       (pairing rn s.(state))).
Proof.
  intros Hrn Hsm.
  unfold InstanceManager.pair, InstanceManager.buildRunner, pairing.
  rewrite run_bind, run_build, Hrn.
  rewrite run_bind, run_call.
  destruct (InstanceRunner.pair rn) as [[]|e]; [|done].
  erewrite run_persistState by (simpl; eassumption).
  now normal_world.
Qed.

(** *** The claims on the manager *)

(** C1, amended.  When provisioning and configuration succeed,
    [initialize] calls the provisioner and writes the state with its
    output, then calls the configurator and writes the state again, then:
    under [autoApprove] it does not prompt and pairs; otherwise it
    prompts, and pairs when the answer is yes, and does not when it is
    no.  A pairing that returns is followed by a write of the state. *)
Theorem initialize_sequence (s : Sys) opts pv o cf rn sm :
  factory.(SubManagerFactory.buildProvisioner) s.(state) = Ok pv ->
  pv.(InstanceProvisioner.provision) opts = Ok o ->
  StateManager.default s.(env) = Ok sm ->
  let st' := set_output (Some o) s.(state) in
  factory.(SubManagerFactory.buildConfigurator) st' = Ok cf ->
  cf.(InstanceConfigurator.configure) = Ok tt ->
  factory.(SubManagerFactory.buildRunner) st' = Ok rn ->
  let doc := toDoc st' in
  let steps := [CallProvision opts; Persisted doc; CallConfigure; Persisted doc] in
  let d' := written sm st' s.(disk) in
  (InstanceManager.autoApproved opts = true ->
     InstanceManager.initialize factory confirm opts s
     = (rn.(InstanceRunner.pair), with_ s st' d' (steps ++ pairing rn st')))
  /\ (InstanceManager.autoApproved opts = false -> confirm = Ok true ->
     InstanceManager.initialize factory confirm opts s
     = (rn.(InstanceRunner.pair),
        with_ s st' d' (steps ++ CallConfirm :: pairing rn st')))
  /\ (InstanceManager.autoApproved opts = false -> confirm = Ok false ->
     InstanceManager.initialize factory confirm opts s
     = (Ok tt, with_ s st' d' (steps ++ [CallConfirm])))
  /\ (forall e, InstanceManager.autoApproved opts = false -> confirm = Err e ->
     InstanceManager.initialize factory confirm opts s
     = (Err e, with_ s st' d' (steps ++ [CallConfirm]))).
Proof.
  intros Hpv Ho Hsm st' Hcf Hok Hrn. cbv zeta.
  unfold InstanceManager.initialize.
  rewrite run_bind, (run_provision s opts pv o sm Hpv Ho Hsm).
  fold st'.
  rewrite run_bind, (run_configure _ cf sm) by assumption.
  cbn [state disk with_]. rewrite written_again.
  repeat split.
  - intros ->. rewrite run_bind. cbn [mret M_ret].
    rewrite (run_pair _ rn sm) by assumption.
    cbn [state disk with_].
    unfold pairing. destruct (InstanceRunner.pair rn);
      rewrite ?written_again; now normal_world.
  - intros -> ->. rewrite run_bind, run_call.
    rewrite (run_pair _ rn sm) by assumption.
    cbn [state disk with_].
    unfold pairing. destruct (InstanceRunner.pair rn);
      rewrite ?written_again; now normal_world.
  - intros -> ->. rewrite run_bind, run_call. cbn [mret M_ret]. now normal_world.
  - intros e -> ->. rewrite run_bind, run_call. now normal_world.
Qed.

(** C4.  [provision]: when the provisioner returns an output, the state
    object has that output in place of its former one, and the state is
    written to the disk; when the provisioner throws, or cannot be built,
    the state object and the disk are as they were, nothing has been
    written, and the error is the provisioner's. *)
Theorem provision_replaces_output_or_leaves_it (s : Sys) opts :
  (forall pv o sm,
     factory.(SubManagerFactory.buildProvisioner) s.(state) = Ok pv ->
     pv.(InstanceProvisioner.provision) opts = Ok o ->
     StateManager.default s.(env) = Ok sm ->
     let st' := set_output (Some o) s.(state) in
     InstanceManager.provision factory opts s
     = (Ok tt, with_ s st' (written sm st' s.(disk))
                 [CallProvision opts; Persisted (toDoc st')])
     /\ st'.(provision).(output) = Some o)
  /\ (forall pv e,
       factory.(SubManagerFactory.buildProvisioner) s.(state) = Ok pv ->
       pv.(InstanceProvisioner.provision) opts = Err e ->
       InstanceManager.provision factory opts s
       = (Err e, with_ s s.(state) s.(disk) [CallProvision opts]))
  /\ (forall e,
       factory.(SubManagerFactory.buildProvisioner) s.(state) = Err e ->
       InstanceManager.provision factory opts s = (Err e, s)).
Proof.
  split; [|split].
  - intros pv o sm Hpv Ho Hsm st'.
    split; [now apply (run_provision s opts pv o sm) | reflexivity].
  - intros pv e. apply run_provision_fails.
  - intros e. apply run_provision_not_built.
Qed.


(** *** Further properties of the manager *)

Lemma run_persistState_fails (s : Sys) e :
  StateManager.default s.(env) = Err e ->
  InstanceManager.persistState s = (Err e, s).
Proof.
  intros Hsm. unfold InstanceManager.persistState. now rewrite Hsm.
Qed.

(** A runner operation: the call, then the write of the state when the
    call returns. *)
Lemma run_runner_operation (s : Sys) rn sm (ev : Event)
    (method : InstanceRunner.t -> result unit) :
  factory.(SubManagerFactory.buildRunner) s.(state) = Ok rn ->
  StateManager.default s.(env) = Ok sm ->
  (runner ← InstanceManager.buildRunner factory;
   InstanceManager.call ev (method runner);;
   InstanceManager.persistState) s
  = (method rn,
     with_ s s.(state)
       match method rn with
       | Ok _ => written sm s.(state) s.(disk)
       | Err _ => s.(disk)
       end
       (ev :: match method rn with
              | Ok _ => [Persisted (toDoc s.(state))]
              | Err _ => []
              end)).
Proof.
  intros Hrn Hsm. unfold InstanceManager.buildRunner.
  rewrite run_bind, run_build, Hrn.
  rewrite run_bind, run_call.
  destruct (method rn) as [[]|e]; [|done].
  erewrite run_persistState by (simpl; eassumption).
  now normal_world.
Qed.

(** X13.  [start], [stop] and [restart] each call the one method of the
    runner that bears their name and nothing else; when the call returns
    the state is written, and when it throws nothing is written and the
    error is the runner's.  The state object is as it was either way. *)
Theorem runner_operations_act_then_persist (s : Sys) rn sm :
  factory.(SubManagerFactory.buildRunner) s.(state) = Ok rn ->
  StateManager.default s.(env) = Ok sm ->
  let after (ev : Event) (r : result unit) :=
    (r,
     with_ s s.(state)
       match r with
       | Ok _ => written sm s.(state) s.(disk)
       | Err _ => s.(disk)
       end
       (ev :: match r with
              | Ok _ => [Persisted (toDoc s.(state))]
              | Err _ => []
              end)) in
  InstanceManager.start factory s = after CallStart rn.(InstanceRunner.start)
  /\ InstanceManager.stop factory s = after CallStop rn.(InstanceRunner.stop)
  /\ InstanceManager.restart factory s
     = after CallRestart rn.(InstanceRunner.restart).
Proof.
  intros Hrn Hsm after. unfold after.
  split; [|split].
  - apply (run_runner_operation s rn sm CallStart InstanceRunner.start Hrn Hsm).
  - apply (run_runner_operation s rn sm CallStop InstanceRunner.stop Hrn Hsm).
  - apply (run_runner_operation s rn sm CallRestart InstanceRunner.restart Hrn Hsm).
Qed.

(** X14.  [configure] calls the configurator and, when it returns,
    writes the state, which it has not changed; when the configurator
    throws, nothing is written and the error is the configurator's. *)
Theorem configure_persists_or_leaves (s : Sys) cf :
  factory.(SubManagerFactory.buildConfigurator) s.(state) = Ok cf ->
  (forall sm,
     cf.(InstanceConfigurator.configure) = Ok tt ->
     StateManager.default s.(env) = Ok sm ->
     InstanceManager.configure factory s
     = (Ok tt, with_ s s.(state) (written sm s.(state) s.(disk))
                 [CallConfigure; Persisted (toDoc s.(state))]))
  /\ (forall e,
        cf.(InstanceConfigurator.configure) = Err e ->
        InstanceManager.configure factory s
        = (Err e, with_ s s.(state) s.(disk) [CallConfigure])).
Proof.
  intros Hcf. split.
  - intros sm Hok Hsm. now apply (run_configure s cf sm).
  - intros e He.
    unfold InstanceManager.configure, InstanceManager.buildConfigurator.
    rewrite run_bind, run_build, Hcf.
    now rewrite run_bind, run_call, He.
Qed.

(** X15.  When the provisioner's [destroy] throws, or the provisioner
    cannot be built, [destroy] stops there: the output of the state is
    kept, nothing is written and the instance's directory is not
    removed. *)
Theorem failed_destroy_keeps_the_instance (s : Sys) opts :
  (forall pv e,
     factory.(SubManagerFactory.buildProvisioner) s.(state) = Ok pv ->
     pv.(InstanceProvisioner.destroy) opts = Err e ->
     InstanceManager.destroy factory opts s
     = (Err e, with_ s s.(state) s.(disk) [CallDestroy opts]))
  /\ (forall e,
        factory.(SubManagerFactory.buildProvisioner) s.(state) = Err e ->
        InstanceManager.destroy factory opts s = (Err e, s)).
Proof.
  unfold InstanceManager.destroy, InstanceManager.buildProvisioner. split.
  - intros pv e Hpv He.
    rewrite run_bind, run_build, Hpv.
    now rewrite run_bind, run_call, He.
  - intros e He. now rewrite run_bind, run_build, He.
Qed.

(** X16.  [initialize] stops at the first step that fails.  When the
    provisioning fails nothing is written and nothing else is called.
    When the configurator cannot be built or fails, the state with the
    output of the provisioning has been written, and neither the prompt
    nor the pairing takes place. *)
Theorem initialize_stops_at_the_first_failure (s : Sys) opts pv :
  factory.(SubManagerFactory.buildProvisioner) s.(state) = Ok pv ->
  (forall e,
     pv.(InstanceProvisioner.provision) opts = Err e ->
     InstanceManager.initialize factory confirm opts s
     = (Err e, with_ s s.(state) s.(disk) [CallProvision opts]))
  /\ (forall o sm,
        pv.(InstanceProvisioner.provision) opts = Ok o ->
        StateManager.default s.(env) = Ok sm ->
        let st' := set_output (Some o) s.(state) in
        (forall e,
           factory.(SubManagerFactory.buildConfigurator) st' = Err e ->
           InstanceManager.initialize factory confirm opts s
           = (Err e, with_ s st' (written sm st' s.(disk))
                       [CallProvision opts; Persisted (toDoc st')]))
        /\ (forall cf e,
              factory.(SubManagerFactory.buildConfigurator) st' = Ok cf ->
              cf.(InstanceConfigurator.configure) = Err e ->
              InstanceManager.initialize factory confirm opts s
              = (Err e, with_ s st' (written sm st' s.(disk))
                          [CallProvision opts; Persisted (toDoc st');
                           CallConfigure]))).
Proof.
  intros Hpv. unfold InstanceManager.initialize. split.
  - intros e He.
    now rewrite run_bind, (run_provision_fails s opts pv e Hpv He).
  - intros o sm Ho Hsm. set (st' := set_output (Some o) s.(state)).
    rewrite run_bind, (run_provision s opts pv o sm Hpv Ho Hsm).
    fold st'. rewrite run_bind.
    unfold InstanceManager.configure, InstanceManager.buildConfigurator.
    rewrite run_bind, run_build. cbn [state with_].
    split.
    + now intros e ->.
    + intros cf e -> He. rewrite run_bind, run_call, He.
      now normal_world.
Qed.


(** X19.  When the environment names no data root, [provision] and
    [destroy] still call the provisioner first: the call is made and the
    output of the state object is replaced, or cleared, before the write
    fails for want of a data root; the disk is untouched, and for
    [destroy] the directory is not removed. *)
Theorem unresolved_data_root_fails_after_the_call (s : Sys) opts pv :
  env_set s.(env).(env_CLOUDYPAD_HOME) = false ->
  env_set s.(env).(env_HOME) = false ->
  factory.(SubManagerFactory.buildProvisioner) s.(state) = Ok pv ->
  (forall o,
     pv.(InstanceProvisioner.provision) opts = Ok o ->
     InstanceManager.provision factory opts s
     = (Err NoDataRootDir,
        with_ s (set_output (Some o) s.(state)) s.(disk) [CallProvision opts]))
  /\ (pv.(InstanceProvisioner.destroy) opts = Ok tt ->
      InstanceManager.destroy factory opts s
      = (Err NoDataRootDir,
         with_ s (set_output undefined s.(state)) s.(disk) [CallDestroy opts])).
Proof.
  intros Hc Hh Hpv.
  assert (Hsm : forall s' : Sys, s'.(env) = s.(env) ->
            StateManager.default s'.(env) = Err NoDataRootDir).
  { intros s' ->. unfold StateManager.default, StateManager.new,
      getEnvironmentDataRootDir. now rewrite Hc, Hh. }
  split.
  - intros o Ho.
    unfold InstanceManager.provision, InstanceManager.buildProvisioner.
    rewrite run_bind, run_build, Hpv.
    rewrite run_bind, run_call, Ho.
    rewrite run_bind, run_assignOutput.
    rewrite run_persistState_fails with (e := NoDataRootDir) by now apply Hsm.
    now normal_world.
  - intros Hok.
    unfold InstanceManager.destroy, InstanceManager.buildProvisioner.
    rewrite run_bind, run_build, Hpv.
    rewrite run_bind, run_call, Hok.
    rewrite run_bind, run_assignOutput.
    rewrite run_bind.
    rewrite run_persistState_fails with (e := NoDataRootDir) by now apply Hsm.
    now normal_world.
Qed.

Lemma bind_returns {A B} (m : M content A) (k : A -> M content B)
    (s s' : Sys) (b : B) :
  (m ≫= k) s = (Ok b, s') ->
  exists a s1, m s = (Ok a, s1) /\ k a s1 = (Ok b, s').
Proof.
  rewrite run_bind. destruct (m s) as [[a|e] s1]; [eauto|discriminate].
Qed.

(** The world after an operation that has returned: the state has been
    written last. *)
Lemma provision_returns (s s' : Sys) opts sm :
  StateManager.default s.(env) = Ok sm ->
  InstanceManager.provision factory opts s = (Ok tt, s') ->
  exists st d evs, s' = with_ s st (written sm st d) evs.
Proof.
  intros Hsm.
  destruct (SubManagerFactory.buildProvisioner factory s.(state))
    as [pv|e] eqn:Hpv;
    [|now rewrite (run_provision_not_built s opts e Hpv)].
  destruct (InstanceProvisioner.provision pv opts) as [o|e] eqn:Ho;
    [|now rewrite (run_provision_fails s opts pv e Hpv Ho)].
  rewrite (run_provision s opts pv o sm Hpv Ho Hsm).
  intros [= <-]. eauto.
Qed.

Lemma configure_returns (s s' : Sys) sm :
  StateManager.default s.(env) = Ok sm ->
  InstanceManager.configure factory s = (Ok tt, s') ->
  exists st d evs, s' = with_ s st (written sm st d) evs.
Proof.
  intros Hsm.
  unfold InstanceManager.configure, InstanceManager.buildConfigurator.
  rewrite run_bind, run_build.
  destruct (SubManagerFactory.buildConfigurator factory s.(state))
    as [cf|e]; [|discriminate].
  rewrite run_bind, run_call.
  destruct (InstanceConfigurator.configure cf) as [[]|e]; [|discriminate].
  erewrite run_persistState by (simpl; eassumption).
  intros [= <-]. normal_world. eexists _, _, _. reflexivity.
Qed.

Lemma runner_operation_returns (s s' : Sys) sm (ev : Event)
    (method : InstanceRunner.t -> result unit) :
  StateManager.default s.(env) = Ok sm ->
  (runner ← InstanceManager.buildRunner factory;
   InstanceManager.call ev (method runner);;
   InstanceManager.persistState) s = (Ok tt, s') ->
  exists st d evs, s' = with_ s st (written sm st d) evs.
Proof.
  intros Hsm.
  destruct (SubManagerFactory.buildRunner factory s.(state)) as [rn|e] eqn:Hrn.
  - rewrite (run_runner_operation s rn sm ev method Hrn Hsm).
    destruct (method rn) as [[]|]; [|discriminate]. intros [= <-]. eauto.
  - unfold InstanceManager.buildRunner.
    now rewrite run_bind, run_build, Hrn.
Qed.

Lemma initialize_returns (s s' : Sys) opts sm :
  StateManager.default s.(env) = Ok sm ->
  InstanceManager.initialize factory confirm opts s = (Ok tt, s') ->
  exists st d evs, s' = with_ s st (written sm st d) evs.
Proof.
  intros Hsm. unfold InstanceManager.initialize.
  intros ([] & s1 & H1 & Hrest)%bind_returns.
  apply (provision_returns _ _ _ sm Hsm) in H1 as (st1 & d1 & evs1 & ->).
  apply bind_returns in Hrest as ([] & s2 & H2 & Hrest).
  apply (configure_returns (with_ s st1 _ evs1) _ sm Hsm)
    in H2 as (st2 & d2 & evs2 & ->).
  apply bind_returns in Hrest as (doPair & s3 & H3 & Hrest).
  assert (exists evs3, s3 = with_ s st2 (written sm st2 d2) evs3) as [evs3 ->].
  { destruct (InstanceManager.autoApproved opts).
    - injection H3 as <- <-. eexists. now normal_world.
    - rewrite run_call in H3. injection H3 as _ <-.
      eexists. now normal_world. }
  destruct doPair.
  - apply (runner_operation_returns (with_ s st2 _ evs3) _ sm CallPair
             InstanceRunner.pair Hsm) in Hrest as (st4 & d4 & evs4 & ->).
    eexists _, _, _. now normal_world.
  - injection Hrest as <-. eauto.
Qed.

(** X17.  With a YAML library that loads what it dumps: after any
    operation of the manager but [destroy] has returned, loading the
    instance from the disk gives the state object as it is then. *)
Theorem disk_holds_the_state_after_success (s s' : Sys) sm opts
    (operation : M content unit) :
  yaml_faithful ->
  StateManager.default s.(env) = Ok sm ->
  In operation
    [InstanceManager.provision factory opts;
     InstanceManager.configure factory;
     InstanceManager.start factory;
     InstanceManager.stop factory;
     InstanceManager.restart factory;
     InstanceManager.pair factory;
     InstanceManager.initialize factory confirm opts] ->
  operation s = (Ok tt, s') ->
  StateManager.loadInstanceState sm s'.(state).(name) s'.(disk)
  = Ok (Some (toDoc s'.(state))).
Proof.
  intros Hyaml Hsm Hin Hop.
  assert (exists st d evs, s' = with_ s st (written sm st d) evs)
    as (st & d & evs & ->).
  { cbn [In] in Hin.
    destruct Hin as [<-|[<-|[<-|[<-|[<-|[<-|[<-|[]]]]]]]].
    - now apply (provision_returns s s' opts sm).
    - now apply (configure_returns s s' sm).
    - now apply (runner_operation_returns s s' sm CallStart InstanceRunner.start).
    - now apply (runner_operation_returns s s' sm CallStop InstanceRunner.stop).
    - now apply (runner_operation_returns s s' sm CallRestart InstanceRunner.restart).
    - now apply (runner_operation_returns s s' sm CallPair InstanceRunner.pair).
    - now apply (initialize_returns s s' opts sm). }
  cbn [with_ state disk]. now apply load_written.
Qed.

End ManagerProperties.

Section NotProvisioned.
Context `{Yaml content}.
Variable doBuildProvisioner :
  string -> value -> jsval -> result InstanceProvisioner.t.
Variable doBuildRunner :
  string -> value -> jsval -> result InstanceRunner.t.
Variable doBuildConfigurator :
  string -> value -> jsval -> result InstanceConfigurator.t.

Let factory : SubManagerFactory.t :=
  AbstractSubManagerFactory.factory doBuildProvisioner doBuildRunner
    doBuildConfigurator.

(** C6.  With a factory of [AbstractSubManagerFactory], on a state whose
    output is undefined, [configure], [start] and [pair] fail on the
    check of the factory, with the errors the specification calls
    [NotProvisionedError], and leave the world as it is: nothing is
    called and nothing is written. *)
Theorem not_provisioned_fails_without_persisting (s : Sys content) :
  s.(state).(provision).(output) = undefined ->
  InstanceManager.configure factory s = (Err NoProvisionOutputForConfigurator, s)
  /\ InstanceManager.start factory s
     = (Err (NoProvisionOutputForRunner s.(state).(name)), s)
  /\ InstanceManager.pair factory s
     = (Err (NoProvisionOutputForRunner s.(state).(name)), s)
  /\ classify NoProvisionOutputForConfigurator = NotProvisionedError
  /\ classify (NoProvisionOutputForRunner s.(state).(name)) = NotProvisionedError.
Proof.
  intros Hout.
  assert (Hc : SubManagerFactory.buildConfigurator factory s.(state)
               = Err NoProvisionOutputForConfigurator).
  { cbn. unfold AbstractSubManagerFactory.buildConfigurator.
    now rewrite Hout. }
  assert (Hr : SubManagerFactory.buildRunner factory s.(state)
               = Err (NoProvisionOutputForRunner s.(state).(name))).
  { cbn. unfold AbstractSubManagerFactory.buildRunner. now rewrite Hout. }
  unfold InstanceManager.configure, InstanceManager.start, InstanceManager.pair,
    InstanceManager.buildConfigurator, InstanceManager.buildRunner.
  repeat split; rewrite run_bind, run_build; now rewrite ?Hc, ?Hr.
Qed.

(** X20.  The factory of [AbstractSubManagerFactory] takes any falsy
    output (undefined, or the [null], [false], [0] or empty string a state
    file can hold) for a missing one: [stop] and [restart], as [configure],
    [start] and [pair], then fail on its check and leave the world as it
    is.  The provisioner is built whatever the output, from the name, the
    input and the output of the state; and with a truthy output the runner
    and the configurator are built from the same three. *)
Theorem falsy_output_is_no_output (s : Sys content) :
  let st := s.(state) in
  let build {A} (doBuild : string -> value -> jsval -> result A) :=
    doBuild st.(name) st.(provision).(input) st.(provision).(output) in
  (truthy st.(provision).(output) = false ->
     InstanceManager.stop factory s
     = (Err (NoProvisionOutputForRunner st.(name)), s)
     /\ InstanceManager.restart factory s
        = (Err (NoProvisionOutputForRunner st.(name)), s)
     /\ InstanceManager.start factory s
        = (Err (NoProvisionOutputForRunner st.(name)), s)
     /\ InstanceManager.pair factory s
        = (Err (NoProvisionOutputForRunner st.(name)), s)
     /\ InstanceManager.configure factory s
        = (Err NoProvisionOutputForConfigurator, s))
  /\ (truthy st.(provision).(output) = true ->
      factory.(SubManagerFactory.buildRunner) st = build doBuildRunner
      /\ factory.(SubManagerFactory.buildConfigurator) st
         = build doBuildConfigurator)
  /\ factory.(SubManagerFactory.buildProvisioner) st = build doBuildProvisioner.
Proof.
  cbv zeta. split; [|split; [|reflexivity]].
  - intros Hout.
    assert (Hc : SubManagerFactory.buildConfigurator factory s.(state)
                 = Err NoProvisionOutputForConfigurator).
    { cbn. unfold AbstractSubManagerFactory.buildConfigurator.
      now rewrite Hout. }
    assert (Hr : SubManagerFactory.buildRunner factory s.(state)
                 = Err (NoProvisionOutputForRunner s.(state).(name))).
    { cbn. unfold AbstractSubManagerFactory.buildRunner. now rewrite Hout. }
    unfold InstanceManager.configure, InstanceManager.start,
      InstanceManager.stop, InstanceManager.restart, InstanceManager.pair,
      InstanceManager.buildConfigurator, InstanceManager.buildRunner.
    repeat split; rewrite run_bind, run_build; now rewrite ?Hc, ?Hr.
  - intros Hout. cbn.
    unfold AbstractSubManagerFactory.buildRunner,
      AbstractSubManagerFactory.buildConfigurator.
    now rewrite Hout.
Qed.

End NotProvisioned.

(** ** The Pulumi client *)

Section PulumiProperties.
Context {content : Type}.
Variable PulumiFn : Type.
Variable OutputType : Type.
Variable createOrSelectStack :
  string -> string -> PulumiFn -> string -> string -> result Stack.t.
Variable buildTypedOutput : value -> result OutputType.

Local Abbreviation PulumiSys := (PulumiSys content).
Local Abbreviation getStack :=
  (InstancePulumiClient.getStack createOrSelectStack).
Local Abbreviation up :=
  (InstancePulumiClient.up createOrSelectStack buildTypedOutput).
Local Abbreviation preview :=
  (InstancePulumiClient.preview createOrSelectStack).
Local Abbreviation destroy :=
  (InstancePulumiClient.destroy createOrSelectStack).

Lemma runP_bind {A B} (m : P content A) (k : A -> P content B) (w : PulumiSys) :
  (m ≫= k) w
  = match m w with
    | (Ok a, w') => k a w'
    | (Err e, w') => (Err e, w')
    end.
Proof. reflexivity. Qed.

Lemma runP_call {A} (c : PulumiCall) (r : result A) (w : PulumiSys) :
  InstancePulumiClient.call c r w = (r, called w w.(files) [c]).
Proof. reflexivity. Qed.

Lemma called_called (w : PulumiSys) d d' cs cs' :
  called (called w d cs) d' cs' = called w d' (cs ++ cs').
Proof. unfold called. cbn. now rewrite app_assoc. Qed.

(** The disk after [initStack] has seen to the directory of a backend on
    the file system. *)
Lemma run_initStack (this : InstancePulumiClient.t PulumiFn) (w : PulumiSys) :
  w.(stack) = None ->
  let url := backendUrl_of this w.(processEnv) in
  let pass := default "" w.(processEnv).(env_PULUMI_CONFIG_PASSPHRASE) in
  let d :=
    if startsWith url "file://" then
      let dir := slice url 7 in
      if negb (StateManager.existsSync dir w.(files))
      then StateManager.mkdirSync dir w.(files) else w.(files)
    else w.(files) in
  InstancePulumiClient.initStack createOrSelectStack this w
  = (createOrSelectStack this.(InstancePulumiClient.stackName)
       this.(InstancePulumiClient.projectName)
       this.(InstancePulumiClient.program) url pass,
     called w d
       [CreateOrSelectStack this.(InstancePulumiClient.stackName)
          this.(InstancePulumiClient.projectName) url pass]).
Proof.
  intros Hs url pass d. subst url pass d.
  unfold InstancePulumiClient.initStack, StateManager.getDataRootDir,
    backendUrl_of.
  rewrite runP_bind. cbn [InstancePulumiClient.getProcessEnv].
  rewrite runP_bind. cbn [InstancePulumiClient.getField].
  rewrite runP_bind. rewrite Hs. cbn [mret P_ret].
  rewrite runP_bind.
  destruct (startsWith _ "file://"); cbn [mret P_ret].
  - unfold InstancePulumiClient.ensureDir. rewrite runP_call.
    unfold called. cbn. now rewrite Hs.
  - rewrite runP_call. reflexivity.
Qed.

Lemma run_getStack_cached (this : InstancePulumiClient.t PulumiFn)
    (w : PulumiSys) st :
  w.(stack) = Some st -> getStack this w = (Ok st, w).
Proof.
  intros Hs. unfold InstancePulumiClient.getStack.
  rewrite runP_bind. cbn [InstancePulumiClient.getField]. now rewrite Hs.
Qed.

Lemma run_getStack_new (this : InstancePulumiClient.t PulumiFn) (w : PulumiSys) :
  w.(stack) = None ->
  let url := backendUrl_of this w.(processEnv) in
  let pass := default "" w.(processEnv).(env_PULUMI_CONFIG_PASSPHRASE) in
  let c := CreateOrSelectStack this.(InstancePulumiClient.stackName)
             this.(InstancePulumiClient.projectName) url pass in
  getStack this w
  = match createOrSelectStack this.(InstancePulumiClient.stackName)
            this.(InstancePulumiClient.projectName)
            this.(InstancePulumiClient.program) url pass with
    | Ok st => (Ok st, holding st (called w (backend_ensured this w) [c]))
    | Err e => (Err e, called w (backend_ensured this w) [c])
    end.
Proof.
  intros Hs. cbv zeta.
  unfold InstancePulumiClient.getStack.
  rewrite runP_bind. cbn [InstancePulumiClient.getField]. rewrite Hs.
  rewrite runP_bind, (run_initStack this w Hs). cbv zeta.
  assert (Hd : forall dir,
            (if negb (StateManager.existsSync dir w.(files))
             then StateManager.mkdirSync dir w.(files) else w.(files))
            = with_directory dir w.(files)).
  { intros dir. unfold StateManager.existsSync, StateManager.mkdirSync,
      with_directory.
    destruct (files w !! dir) eqn:Hdir.
    - now rewrite bool_decide_eq_true_2 by eauto.
    - rewrite bool_decide_eq_false_2; [done|]. intros [? ?]; discriminate. }
  rewrite Hd. fold (backend_ensured this w).
  destruct (createOrSelectStack _ _ _ _ _); reflexivity.
Qed.


Lemma run_up (this : InstancePulumiClient.t PulumiFn) (w : PulumiSys) st :
  w.(stack) = Some st ->
  up this w
  = match st.(Stack.getAllConfig) with
    | Err e => (Err e, called w w.(files) [StackGetAllConfig])
    | Ok _ =>
    match st.(Stack.cancel) with
    | Err e => (Err e, called w w.(files) [StackGetAllConfig; StackCancel])
    | Ok _ =>
    match st.(Stack.up) with
    | Err e =>
        (Err e, called w w.(files) [StackGetAllConfig; StackCancel; StackUp true])
    | Ok _ =>
    match st.(Stack.outputs) with
    | Err e =>
        (Err e, called w w.(files)
                  [StackGetAllConfig; StackCancel; StackUp true; StackOutputs])
    | Ok outputs =>
        (buildTypedOutput outputs,
         called w w.(files)
           [StackGetAllConfig; StackCancel; StackUp true; StackOutputs])
    end end end end.
Proof.
  intros Hs. unfold InstancePulumiClient.up.
  rewrite runP_bind, (run_getStack_cached this w st Hs).
  rewrite runP_bind, runP_call.
  destruct (Stack.getAllConfig st); [|done].
  rewrite runP_bind, runP_call.
  destruct (Stack.cancel st); [|now rewrite called_called].
  rewrite runP_bind, runP_call.
  destruct (Stack.up st); [|now rewrite !called_called].
  rewrite runP_bind, runP_call.
  destruct (Stack.outputs st); now rewrite !called_called.
Qed.

(** X23.  [up], on a client that holds its stack: the configuration is
    read (for the log), the stack is cancelled, then updated with a
    refresh, then its outputs are read and typed.  When the read of the
    configuration or the cancel throws, the update is not run; when the
    update throws, the outputs are not read. *)
Theorem up_cancels_then_updates (this : InstancePulumiClient.t PulumiFn)
    (w : PulumiSys) st :
  w.(stack) = Some st ->
  (forall config upRes outputs,
     st.(Stack.getAllConfig) = Ok config ->
     st.(Stack.cancel) = Ok tt ->
     st.(Stack.up) = Ok upRes ->
     st.(Stack.outputs) = Ok outputs ->
     up this w
     = (buildTypedOutput outputs,
        called w w.(files)
          [StackGetAllConfig; StackCancel; StackUp true; StackOutputs]))
  /\ (forall e, st.(Stack.getAllConfig) = Err e ->
        up this w = (Err e, called w w.(files) [StackGetAllConfig]))
  /\ (forall config e,
        st.(Stack.getAllConfig) = Ok config ->
        st.(Stack.cancel) = Err e ->
        up this w = (Err e, called w w.(files) [StackGetAllConfig; StackCancel]))
  /\ (forall config e,
        st.(Stack.getAllConfig) = Ok config ->
        st.(Stack.cancel) = Ok tt ->
        st.(Stack.up) = Err e ->
        up this w
        = (Err e, called w w.(files)
                    [StackGetAllConfig; StackCancel; StackUp true])).
Proof.
  intros Hs. rewrite (run_up this w st Hs).
  split; [|split; [|split]].
  - now intros config upRes outputs -> -> -> ->.
  - now intros e ->.
  - now intros config e -> ->.
  - now intros config e -> -> ->.
Qed.

Lemma run_destroy (this : InstancePulumiClient.t PulumiFn) (w : PulumiSys) st :
  w.(stack) = Some st ->
  destroy this w
  = match st.(Stack.cancel) with
    | Err e => (Err e, called w w.(files) [StackCancel])
    | Ok _ =>
    match st.(Stack.refresh) with
    | Err e => (Err e, called w w.(files) [StackCancel; StackRefresh])
    | Ok _ =>
    match st.(Stack.destroy) with
    | Err e =>
        (Err e, called w w.(files) [StackCancel; StackRefresh; StackDestroy true])
    | Ok _ =>
        (Ok tt, called w w.(files) [StackCancel; StackRefresh; StackDestroy true])
    end end end.
Proof.
  intros Hs. unfold InstancePulumiClient.destroy.
  rewrite runP_bind, (run_getStack_cached this w st Hs).
  rewrite runP_bind, runP_call.
  destruct (Stack.cancel st); [|done].
  rewrite runP_bind, runP_call.
  destruct (Stack.refresh st); [|now rewrite called_called].
  rewrite runP_bind, runP_call.
  destruct (Stack.destroy st); now rewrite !called_called.
Qed.

(** X24.  [destroy], on a client that holds its stack: the stack is
    cancelled, then refreshed, then destroyed and removed.  When the
    cancel throws nothing else is called, and when the refresh throws the
    stack is not destroyed. *)
Theorem destroy_cancels_refreshes_then_removes
    (this : InstancePulumiClient.t PulumiFn) (w : PulumiSys) st :
  w.(stack) = Some st ->
  (forall refreshRes destroyRes,
     st.(Stack.cancel) = Ok tt ->
     st.(Stack.refresh) = Ok refreshRes ->
     st.(Stack.destroy) = Ok destroyRes ->
     destroy this w
     = (Ok tt, called w w.(files) [StackCancel; StackRefresh; StackDestroy true]))
  /\ (forall e, st.(Stack.cancel) = Err e ->
        destroy this w = (Err e, called w w.(files) [StackCancel]))
  /\ (forall e,
        st.(Stack.cancel) = Ok tt ->
        st.(Stack.refresh) = Err e ->
        destroy this w = (Err e, called w w.(files) [StackCancel; StackRefresh])).
Proof.
  intros Hs. rewrite (run_destroy this w st Hs).
  split; [|split].
  - now intros refreshRes destroyRes -> -> ->.
  - now intros e ->.
  - now intros e -> ->.
Qed.

(** X25.  Whatever the stack and the workspace answer, [preview] makes
    no call that changes the resources: no update, no refresh, no
    destruction.  When it returns, its last three calls are the read of
    the configuration, the cancel and the preview. *)
Theorem preview_changes_no_resource (this : InstancePulumiClient.t PulumiFn)
    (w : PulumiSys) :
  exists cs,
    (preview this w).2.(calls) = (w.(calls) ++ cs)%list
    /\ forallb (fun c => negb (changes_resources c)) cs = true
    /\ ((exists prevRes, (preview this w).1 = Ok prevRes) ->
        exists cs', cs = (cs' ++ [StackGetAllConfig; StackCancel; StackPreview true])%list).
Proof.
  assert (Hcached : forall (w0 : PulumiSys) st, w0.(stack) = Some st ->
            exists cs,
              (preview this w0).2.(calls) = (w0.(calls) ++ cs)%list
              /\ forallb (fun c => negb (changes_resources c)) cs = true
              /\ ((exists prevRes, (preview this w0).1 = Ok prevRes) ->
                  cs = [StackGetAllConfig; StackCancel; StackPreview true])).
  { intros w0 st Hs. unfold InstancePulumiClient.preview.
    rewrite runP_bind, (run_getStack_cached this w0 st Hs).
    rewrite runP_bind, runP_call.
    destruct (Stack.getAllConfig st);
      [|eexists; split; [reflexivity|]; split; [reflexivity|];
        intros [? [=]]].
    rewrite runP_bind, runP_call.
    destruct (Stack.cancel st);
      [|eexists; split; [cbn; now rewrite <- app_assoc|]; split; [reflexivity|];
        intros [? [=]]].
    rewrite runP_bind, runP_call.
    destruct (Stack.preview st).
    - eexists; split; [cbn; now rewrite <- !app_assoc|]; split; [reflexivity|].
      reflexivity.
    - eexists; split; [cbn; now rewrite <- !app_assoc|]; split; [reflexivity|].
      intros [? [=]]. }
  destruct (stack w) as [st|] eqn:Hs.
  - destruct (Hcached w st Hs) as (cs & H1 & H2 & H3).
    exists cs. split; [done|]. split; [done|].
    intros Hok. exists []. now apply H3.
  - unfold InstancePulumiClient.preview. rewrite runP_bind.
    rewrite (run_getStack_new this w Hs).
    destruct (createOrSelectStack _ _ _ _ _) as [st|e].
    + set (w1 := holding st (called w _ _)).
      destruct (Hcached w1 st eq_refl) as (cs & H1 & H2 & H3).
      unfold InstancePulumiClient.preview in H1, H3.
      rewrite runP_bind, (run_getStack_cached this w1 st eq_refl) in H1, H3.
      eexists (_ :: cs). split; [|split].
      * rewrite H1. cbn. now rewrite <- app_assoc.
      * exact H2.
      * intros Hok. eexists [_]. cbn. f_equal. now apply H3.
    + eexists [_]. split; [reflexivity|]. split; [reflexivity|].
      intros [? [=]].
Qed.

(** X22.  The first [getStack] sees to the directory of the backend,
    whether [createOrSelectStack] then returns or not.  With no
    [PULUMI_BACKEND_URL] the backend is [pulumi-backend] under the data
    root and that directory exists afterwards; with a [file://] URL the
    directory named after the prefix does; with any other URL, the empty
    string included, the URL is used as it is and the disk is untouched.
    No existing directory is changed.  (The directory is taken to be one
    that [fs.mkdirSync] can create.) *)
Theorem backend_directory_is_ensured (this : InstancePulumiClient.t PulumiFn)
    (w : PulumiSys) :
  w.(stack) = None ->
  let root := this.(InstancePulumiClient.stateManager).(StateManager.dataRootDir) in
  let w' := (getStack this w).2 in
  (w.(processEnv).(env_PULUMI_BACKEND_URL) = None ->
     backendUrl_of this w.(processEnv) = "file://" ++ root ++ "/pulumi-backend"
     /\ w'.(files) = with_directory (root ++ "/pulumi-backend") w.(files)
     /\ StateManager.existsSync (root ++ "/pulumi-backend") w'.(files) = true)
  /\ (forall dir,
        w.(processEnv).(env_PULUMI_BACKEND_URL) = Some ("file://" ++ dir) ->
        dir <> "" ->
        w'.(files) = with_directory dir w.(files)
        /\ StateManager.existsSync dir w'.(files) = true)
  /\ (forall url,
        w.(processEnv).(env_PULUMI_BACKEND_URL) = Some url ->
        startsWith url "file://" = false ->
        backendUrl_of this w.(processEnv) = url /\ w'.(files) = w.(files))
  /\ (forall dir', w.(files) !! dir' = None \/ w'.(files) !! dir' = w.(files) !! dir').
Proof.
  intros Hs root w'.
  assert (Hw' : w'.(files) = backend_ensured this w).
  { unfold w'. rewrite (run_getStack_new this w Hs).
    now destruct (createOrSelectStack _ _ _ _ _). }
  assert (Hfile : forall dir, startsWith ("file://" ++ dir) "file://" = true).
  { intros dir. unfold startsWith. cbn. now destruct dir. }
  assert (Hex : forall dir,
            StateManager.existsSync dir (with_directory dir w.(files)) = true).
  { intros dir. unfold StateManager.existsSync, with_directory.
    apply bool_decide_eq_true_2.
    destruct (files w !! dir) eqn:Hdir; [now rewrite Hdir|].
    rewrite lookup_insert_eq. eauto. }
  rewrite Hw'. unfold backend_ensured, backendUrl_of. fold root.
  split; [|split; [|split]].
  - intros ->. cbn [default from_option id]. rewrite Hfile. split; [done|].
    change (slice ("file://" ++ root ++ "/pulumi-backend") 7)
      with (root ++ "/pulumi-backend").
    split; [done|apply Hex].
  - intros dir -> _. cbn [default from_option id]. rewrite Hfile.
    change (slice ("file://" ++ dir) 7) with dir.
    split; [done|apply Hex].
  - intros url -> Hnot. cbn [default from_option id]. now rewrite Hnot.
  - intros dir'.
    destruct (startsWith _ "file://"); [|now right].
    unfold with_directory.
    destruct (files w !! slice _ 7) eqn:Hdir; [now right|].
    destruct (decide (dir' = slice
      (default ("file://" ++ root ++ "/pulumi-backend")
         (env_PULUMI_BACKEND_URL (processEnv w))) 7)) as [->|Hne].
    + now left.
    + right. now rewrite lookup_insert_ne.
Qed.

(** X26.  An [up] followed by a [destroy] on a new client, every call
    returning: the stack is created once, by the [up], and the [destroy]
    uses it; the calls are the creation, the four of [up] and the three
    of [destroy], in this order. *)
Theorem up_then_destroy_share_the_stack (this : InstancePulumiClient.t PulumiFn)
    (w : PulumiSys) st config upRes outputs typed refreshRes destroyRes :
  w.(stack) = None ->
  let url := backendUrl_of this w.(processEnv) in
  let pass := default "" w.(processEnv).(env_PULUMI_CONFIG_PASSPHRASE) in
  createOrSelectStack this.(InstancePulumiClient.stackName)
    this.(InstancePulumiClient.projectName)
    this.(InstancePulumiClient.program) url pass = Ok st ->
  st.(Stack.getAllConfig) = Ok config ->
  st.(Stack.cancel) = Ok tt ->
  st.(Stack.up) = Ok upRes ->
  st.(Stack.outputs) = Ok outputs ->
  buildTypedOutput outputs = Ok typed ->
  st.(Stack.refresh) = Ok refreshRes ->
  st.(Stack.destroy) = Ok destroyRes ->
  (up this;; destroy this) w
  = (Ok tt,
     holding st
       (called w (backend_ensured this w)
          [CreateOrSelectStack this.(InstancePulumiClient.stackName)
             this.(InstancePulumiClient.projectName) url pass;
           StackGetAllConfig; StackCancel; StackUp true; StackOutputs;
           StackCancel; StackRefresh; StackDestroy true])).
Proof.
  intros Hs url pass Hst Hconfig Hcancel Hup Hout Htyped Hrefresh Hdestroy.
  rewrite runP_bind.
  unfold InstancePulumiClient.up at 1.
  rewrite runP_bind, (run_getStack_new this w Hs). cbv zeta.
  fold url pass. rewrite Hst.
  set (w1 := holding st _).
  assert (H1 : up this w1
               = (Ok typed,
                  called w1 w1.(files)
                    [StackGetAllConfig; StackCancel; StackUp true; StackOutputs])).
  { rewrite (run_up this w1 st eq_refl).
    now rewrite Hconfig, Hcancel, Hup, Hout, Htyped. }
  unfold InstancePulumiClient.up in H1.
  rewrite runP_bind, (run_getStack_cached this w1 st eq_refl) in H1.
  rewrite H1.
  rewrite (run_destroy this (called w1 w1.(files) _) st eq_refl).
  rewrite Hcancel, Hrefresh, Hdestroy.
  unfold called, holding, w1. cbn. now rewrite <- !app_assoc.
Qed.

End PulumiProperties.

(** ** The claims at the example worlds *)

#[local] Existing Instance plain_yaml.

(** C1, as stated, fails: under [autoApprove], with collaborators that
    succeed, [initialize] does not skip the pairing: the runner's [pair]
    is called, without a prompt. *)
Lemma autoApprove_pairs :
  InstanceManager.autoApproved yes = true
  /\ (InstanceManager.initialize stub_factory (Ok false) yes
        (world box1)).1 = Ok tt
  /\ trace (InstanceManager.initialize stub_factory (Ok false) yes
              (world box1)).2
     = [CallProvision yes; Persisted (toDoc box1_provisioned);
        CallConfigure; Persisted (toDoc box1_provisioned);
        CallPair; Persisted (toDoc box1_provisioned)].
Proof. repeat split. Qed.

(** [initialize] under [autoApprove], from a world with an empty disk. *)
Lemma initialize_sequence_witness :
  InstanceManager.initialize stub_factory (Ok false) yes (world box1)
  = (Ok tt,
     with_ (world box1) box1_provisioned
       (written home_manager box1_provisioned ∅)
       ([CallProvision yes; Persisted (toDoc box1_provisioned);
         CallConfigure; Persisted (toDoc box1_provisioned)]
        ++ pairing stub_runner box1_provisioned)).
Proof.
  apply (proj1 (initialize_sequence stub_factory (Ok false)
                  (world box1) yes stub_provisioner aws_output stub_configurator
                  stub_runner home_manager
                  eq_refl eq_refl eq_refl eq_refl eq_refl eq_refl)).
  reflexivity.
Defined.

(** [provision] with a provisioner that succeeds, and with one that fails
    on a provisioned state. *)
Lemma provision_replaces_output_or_leaves_it_witness :
  InstanceManager.provision stub_factory yes (world box1)
  = (Ok tt,
     with_ (world box1) box1_provisioned
       (written home_manager box1_provisioned ∅)
       [CallProvision yes; Persisted (toDoc box1_provisioned)])
  /\ InstanceManager.provision failing_factory yes
       (world box1_provisioned)
     = (Err (Thrown "stack update failed"),
        with_ (world box1_provisioned) box1_provisioned ∅ [CallProvision yes]).
Proof.
  split.
  - apply (proj1 (provision_replaces_output_or_leaves_it
                    stub_factory (world box1) yes)
             stub_provisioner aws_output home_manager eq_refl eq_refl eq_refl).
  - apply (proj1 (proj2 (provision_replaces_output_or_leaves_it
                    failing_factory (world box1_provisioned) yes))
             failing_provisioner (Thrown "stack update failed") eq_refl eq_refl).
Defined.


(** [configure], [start] and [pair] on "box1" before it is provisioned. *)
Lemma not_provisioned_fails_without_persisting_witness :
  InstanceManager.configure stub_factory (world box1)
  = (Err NoProvisionOutputForConfigurator, world box1)
  /\ InstanceManager.start stub_factory (world box1)
     = (Err (NoProvisionOutputForRunner "box1"), world box1)
  /\ InstanceManager.pair stub_factory (world box1)
     = (Err (NoProvisionOutputForRunner "box1"), world box1)
  /\ classify NoProvisionOutputForConfigurator = NotProvisionedError
  /\ classify (NoProvisionOutputForRunner "box1") = NotProvisionedError.
Proof.
  apply (not_provisioned_fails_without_persisting
           (fun _ _ _ => Ok stub_provisioner) (fun _ _ _ => Ok stub_runner)
           (fun _ _ _ => Ok stub_configurator) (world box1) eq_refl).
Defined.

(** Three successive writes of "box1", then a load; the YAML library is
    [plain_yaml]. *)
Lemma persist_then_load_witness :
  (exists disk',
     persistAll home_manager [box1; box1_provisioned; box1] ∅
     = Ok disk'
     /\ StateManager.loadInstanceState home_manager "box1" disk'
        = Ok (Some (toDoc box1)))
  /\ (rawState ← yaml_load (yaml_dump (toDoc box1));
      ensureStateV1 rawState)
     = Ok (Some (toDoc box1)).
Proof.
  apply (persist_then_load home_manager [box1; box1_provisioned]
           box1 ∅).
  - intros v. reflexivity.
  - repeat constructor.
Defined.

(** ** The further properties at the example worlds *)


(** "box1" on an empty disk, and on a disk where its directory is empty. *)
Lemma load_without_directory_or_file_witness :
  StateManager.loadInstanceState home_manager "box1" (∅ : Disk value)
  = Err (InstanceDoesNotExist "box1")
  /\ StateManager.instanceExists home_manager "box1" empty_box1_disk = true
  /\ StateManager.loadInstanceState home_manager "box1" empty_box1_disk
     = Err (NoSuchFile "/home/u/.cloudypad/instances/box1/config.yml").
Proof.
  split.
  - apply (proj1 (load_without_directory_or_file home_manager "box1" ∅)).
    reflexivity.
  - apply (proj2 (load_without_directory_or_file home_manager "box1"
                    empty_box1_disk) ∅); reflexivity.
Defined.

(** "box1" when its file holds [null]. *)
Lemma load_parses_then_migrates_witness :
  StateManager.loadInstanceState home_manager "box1" null_box1_disk
  = Err TypeError.
Proof.
  apply (proj2 (proj2 (load_parses_then_migrates home_manager "box1"
                         null_box1_disk {[ "config.yml" := VNull ]} VNull
                         eq_refl eq_refl))
           (Some VNull)); reflexivity.
Defined.



(** A listing with "box1", the empty directory "box2" and a file: "box1"
    is returned, "box2" is not. *)
Lemma listInstances_lists_the_loadable_witness :
  In "box1" (StateManager.listInstances home_manager listing listed_disk)
  /\ ~ In "box2" (StateManager.listInstances home_manager listing listed_disk).
Proof.
  pose proof (proj1 (proj2 (listInstances_lists_the_loadable home_manager
                              listing listed_disk))
                ["box1"; "box2"; "README.md"] eq_refl) as Hl.
  split.
  - apply (Hl "box1"). split; [left; reflexivity|].
    exists (toDoc box1). reflexivity.
  - intros Hin. apply (Hl "box2") in Hin as [_ [text Htext]].
    discriminate Htext.
Defined.


(** The AWS document with [version: 0]. *)
Lemma falsy_version_is_legacy_witness :
  ensureStateV1 (Some (VObj zero_version_aws))
  = ensureStateV1 (Some (VObj (delete "version" zero_version_aws))).
Proof. apply (falsy_version_is_legacy zero_version_aws). reflexivity. Defined.

(** A document with neither a host nor a provider. *)
Lemma host_and_ssh_checked_first_witness :
  ensureStateV1 no_provider_no_host_doc = Err MissingHost.
Proof.
  apply (proj1 (host_and_ssh_checked_first no_provider_no_host_doc
                  eq_refl eq_refl)).
  reflexivity.
Defined.


(** The AWS document: the machine type comes from [create], the user from
    the document's [ssh]. *)
Lemma migrated_config_witness :
  aws_state # "provision" # "config" # "machineType" = Some (VStr "P5000")
  /\ aws_state # "provision" # "config" # "ssh" # "user" = Some (VStr "u").
Proof.
  pose proof (migrated_config aws_doc aws_state "aws" [] eq_refl eq_refl
                eq_refl) as [Hssh Hcreate].
  split.
  - rewrite (Hcreate "machineType"); [reflexivity|discriminate|discriminate].
  - rewrite Hssh. reflexivity.
Defined.

(** The AWS document: its [host] and [status] are not properties of the
    state. *)
Lemma migrated_state_shape_witness :
  aws_state # "host" = undefined
  /\ aws_state # "status" = undefined
  /\ aws_state # "version" = Some (VStr "1").
Proof.
  pose proof (migrated_state_shape aws_doc aws_state eq_refl eq_refl)
    as (Hk & _ & Hv & _).
  split; [|split; [|exact Hv]]; apply Hk; discriminate.
Defined.

(** [stop] on the provisioned "box1". *)
Lemma runner_operations_act_then_persist_witness :
  InstanceManager.stop stub_factory (world box1_provisioned)
  = (Ok tt,
     with_ (world box1_provisioned) box1_provisioned
       (written home_manager box1_provisioned ∅)
       [CallStop; Persisted (toDoc box1_provisioned)]).
Proof.
  apply (proj1 (proj2 (runner_operations_act_then_persist stub_factory
                         (world box1_provisioned) stub_runner home_manager
                         eq_refl eq_refl))).
Defined.

(** [configure] on the provisioned "box1", with a configurator that
    fails. *)
Lemma configure_persists_or_leaves_witness :
  InstanceManager.configure unconfigurable_factory (world box1_provisioned)
  = (Err (Thrown "playbook failed"),
     with_ (world box1_provisioned) box1_provisioned ∅ [CallConfigure]).
Proof.
  apply (proj2 (configure_persists_or_leaves unconfigurable_factory
                  (world box1_provisioned) failing_configurator eq_refl)
           (Thrown "playbook failed") eq_refl).
Defined.

(** [destroy] of the provisioned "box1", with a provisioner that fails. *)
Lemma failed_destroy_keeps_the_instance_witness :
  InstanceManager.destroy failing_factory yes (world box1_provisioned)
  = (Err (Thrown "stack destroy failed"),
     with_ (world box1_provisioned) box1_provisioned ∅ [CallDestroy yes]).
Proof.
  apply (proj1 (failed_destroy_keeps_the_instance failing_factory
                  (world box1_provisioned) yes)
           failing_provisioner (Thrown "stack destroy failed")
           eq_refl eq_refl).
Defined.

(** [initialize] of "box1" with a provisioner that fails, and with a
    configurator that fails. *)
Lemma initialize_stops_at_the_first_failure_witness :
  InstanceManager.initialize failing_factory (Ok true) yes (world box1)
  = (Err (Thrown "stack update failed"),
     with_ (world box1) box1 ∅ [CallProvision yes])
  /\ InstanceManager.initialize unconfigurable_factory (Ok true) yes (world box1)
     = (Err (Thrown "playbook failed"),
        with_ (world box1) box1_provisioned
          (written home_manager box1_provisioned ∅)
          [CallProvision yes; Persisted (toDoc box1_provisioned);
           CallConfigure]).
Proof.
  split.
  - apply (proj1 (initialize_stops_at_the_first_failure failing_factory
                    (Ok true) (world box1) yes failing_provisioner eq_refl)
             (Thrown "stack update failed") eq_refl).
  - apply (proj2 (proj2 (initialize_stops_at_the_first_failure
                           unconfigurable_factory (Ok true) (world box1) yes
                           stub_provisioner eq_refl)
                    aws_output home_manager eq_refl eq_refl)
             failing_configurator (Thrown "playbook failed") eq_refl eq_refl).
Defined.

(** After the provisioning of "box1". *)
Lemma disk_holds_the_state_after_success_witness :
  StateManager.loadInstanceState home_manager "box1"
    (written home_manager box1_provisioned ∅)
  = Ok (Some (toDoc box1_provisioned)).
Proof.
  apply (disk_holds_the_state_after_success stub_factory (Ok true)
           (world box1)
           (with_ (world box1) box1_provisioned
              (written home_manager box1_provisioned ∅)
              [CallProvision yes; Persisted (toDoc box1_provisioned)])
           home_manager yes (InstanceManager.provision stub_factory yes)).
  - intros v. reflexivity.
  - reflexivity.
  - left. reflexivity.
  - reflexivity.
Defined.


(** The provisioning of "box1" where no data root is named. *)
Lemma unresolved_data_root_fails_after_the_call_witness :
  InstanceManager.provision stub_factory yes (homeless_world box1)
  = (Err NoDataRootDir,
     with_ (homeless_world box1) box1_provisioned ∅ [CallProvision yes]).
Proof.
  apply (proj1 (unresolved_data_root_fails_after_the_call stub_factory
                  (homeless_world box1) yes stub_provisioner
                  eq_refl eq_refl eq_refl)
           aws_output eq_refl).
Defined.

(** [restart] on "box1" before it is provisioned. *)
Lemma falsy_output_is_no_output_witness :
  InstanceManager.restart stub_factory (world box1)
  = (Err (NoProvisionOutputForRunner "box1"), world box1).
Proof.
  apply (proj1 (falsy_output_is_no_output
                  (fun _ _ _ => Ok stub_provisioner)
                  (fun _ _ _ => Ok stub_runner)
                  (fun _ _ _ => Ok stub_configurator) (world box1))
           eq_refl).
Defined.


(** A new client with no backend named, and with a backend in S3. *)
Lemma backend_directory_is_ensured_witness :
  StateManager.existsSync "/home/u/.cloudypad/pulumi-backend"
    (InstancePulumiClient.getStack (workspace stub_stack) box1_client
       (pulumi_world None None)).2.(files) = true
  /\ (InstancePulumiClient.getStack (workspace stub_stack) box1_client
        (pulumi_world (Some "s3://bucket") None)).2.(files) = ∅.
Proof.
  split.
  - apply (proj1 (backend_directory_is_ensured unit (workspace stub_stack)
                    box1_client (pulumi_world None None) eq_refl) eq_refl).
  - apply (proj1 (proj2 (proj2 (backend_directory_is_ensured unit
                                  (workspace stub_stack) box1_client
                                  (pulumi_world (Some "s3://bucket") None)
                                  eq_refl)))
             "s3://bucket" eq_refl eq_refl).
Defined.

(** [up] on a stack whose calls return, and on one whose [cancel]
    throws. *)
Lemma up_cancels_then_updates_witness :
  InstancePulumiClient.up (workspace stub_stack) typed box1_client
    (pulumi_world None (Some stub_stack))
  = (Ok aws_output,
     called (pulumi_world None (Some stub_stack)) ∅
       [StackGetAllConfig; StackCancel; StackUp true; StackOutputs])
  /\ InstancePulumiClient.up (workspace locked_stack) typed box1_client
       (pulumi_world None (Some locked_stack))
     = (Err (Thrown "cancel failed"),
        called (pulumi_world None (Some locked_stack)) ∅
          [StackGetAllConfig; StackCancel]).
Proof.
  split.
  - apply (proj1 (up_cancels_then_updates unit value (workspace stub_stack)
                    typed box1_client (pulumi_world None (Some stub_stack))
                    stub_stack eq_refl)
             (VObj ∅) (VObj ∅) aws_output eq_refl eq_refl eq_refl eq_refl).
  - apply (proj1 (proj2 (proj2 (up_cancels_then_updates unit value
                                  (workspace locked_stack) typed box1_client
                                  (pulumi_world None (Some locked_stack))
                                  locked_stack eq_refl)))
             (VObj ∅) (Thrown "cancel failed") eq_refl eq_refl).
Defined.

(** [destroy] on a stack whose calls return. *)
Lemma destroy_cancels_refreshes_then_removes_witness :
  InstancePulumiClient.destroy (workspace stub_stack) box1_client
    (pulumi_world None (Some stub_stack))
  = (Ok tt,
     called (pulumi_world None (Some stub_stack)) ∅
       [StackCancel; StackRefresh; StackDestroy true]).
Proof.
  apply (proj1 (destroy_cancels_refreshes_then_removes unit
                  (workspace stub_stack) box1_client
                  (pulumi_world None (Some stub_stack)) stub_stack eq_refl)
           (VObj ∅) (VObj ∅) eq_refl eq_refl eq_refl).
Defined.

(** [preview] on a new client. *)
Lemma preview_changes_no_resource_witness :
  exists cs,
    (InstancePulumiClient.preview (workspace stub_stack) box1_client
       (pulumi_world None None)).2.(calls) = cs
    /\ forallb (fun c => negb (changes_resources c)) cs = true.
Proof.
  destruct (preview_changes_no_resource unit (workspace stub_stack)
              box1_client (pulumi_world None None)) as (cs & H1 & H2 & _).
  exists cs. split; [exact H1|exact H2].
Defined.

(** [up] then [destroy] on a new client. *)
Lemma up_then_destroy_share_the_stack_witness :
  calls
    ((InstancePulumiClient.up (workspace stub_stack) typed box1_client;;
      InstancePulumiClient.destroy (workspace stub_stack) box1_client)
       (pulumi_world None None)).2
  = [CreateOrSelectStack "box1" "CloudyPad-AWS"
       "file:///home/u/.cloudypad/pulumi-backend" "";
     StackGetAllConfig; StackCancel; StackUp true; StackOutputs;
     StackCancel; StackRefresh; StackDestroy true].
Proof.
  rewrite (up_then_destroy_share_the_stack unit value (workspace stub_stack)
             typed box1_client (pulumi_world None None) stub_stack
             (VObj ∅) (VObj ∅) aws_output aws_output (VObj ∅) (VObj ∅)
             eq_refl eq_refl eq_refl eq_refl eq_refl eq_refl eq_refl eq_refl
             eq_refl).
  reflexivity.
Defined.



(** The heap [aws_heap] stands for the document [aws_doc], and the
    migration on it returns an object that stands for the migrated
    document. *)
Lemma heap_migration_refines_witness :
  exists s h' s',
    Heap.ensureStateV1 (Some (Heap.VRef 0)) aws_heap = (Ok s, h')
    /\ ensureStateV1 aws_doc = Ok s'
    /\ repr_opt h' s s'.
Proof.
  pose proof (heap_migration_refines _ _ _ aws_heap_stands_for_aws_doc) as H.
  destruct (Heap.ensureStateV1 (Some (Heap.VRef 0)) aws_heap) as [[s|e] h'].
  - destruct (ensureStateV1 aws_doc) as [s'|e']; [by exists s, h', s'|done].
  - destruct (ensureStateV1 aws_doc) as [s'|e'] eqn:Hd; [done|].
    vm_compute in Hd. discriminate Hd.
Defined.
